(* ===== verification/_CoqProject ===== *)
-Q . S2P
Prelude.v
Policy.v
App.v
EventLog.v
Alert.v
Monitor.v
Metrics.v
Lifecycle.v
Startup.v
System.v
