(* ===== verification/Prelude.v ===== *)
(** * Computer-Alarm: a verification development of [src/alarm.py]

    The program is one Python class, [SecurityMonitorGUI], a Tk desktop
    utility that watches the power supply of a laptop.  Its parts, and
    how they talk to each other:

    - the security loop [check_security] (lines 335-369) runs in a
      daemon thread started by [start_monitoring]; once per second it
      reads [psutil.sensors_battery()], classifies the reading with the
      sensitivity slider, and on a Secure->Compromised edge increments
      [incident_count] and calls [trigger_alert]; on the way back it logs
      and calls [stop_alert];
    - the alert ([trigger_alert], [flash_warning], [stop_alert], lines
      371-426) drives the pygame mixer, the "stop alert" button, toasts,
      and a self-rescheduling [root.after(500, flash_warning)] chain;
    - the event log ([log_event], [clear_logs], [export_logs], lines
      312-333 and 506-529) writes to the Tk text widget and, at level
      INFO, to the durable log file of the [logging] module;
    - the metrics refresh ([update_metrics], lines 277-304) runs on the
      Tk timer every second and keeps a bounded history of samples;
    - the monitoring lifecycle ([toggle_monitoring], [start_monitoring],
      [animate_startup], [stop_monitoring], [on_closing], lines 428-504
      and 531-554) starts and stops the loop and the progress animation.

    The thread and the Tk event loop share the object's attributes
    ([monitoring_active], [alert_active], [incident_count], the widgets);
    nothing synchronises them.

    ** Library layout (one file per component, in dependency order)

    - [Prelude] (this file): the monad [PyM] of Python statements
      (reader of the outside world, state of the object, exceptions that
      keep the mutations made before the [raise]), its notation through
      stdpp's [MBind], the [try_except] combinator, the tactics and the
      hint database [alarm], and generic list lemmas ([lastn]).
    - [Policy]: the battery classification of lines 342-347: the
      threshold [(11 - sensitivity) * 10] on rationals and [is_secure];
      the abstract policy of the spec and the theorem that the code
      implements it.
    - [App]: the object's state [App] (attributes set in [setup_system]
      and the Tk widget options as a [gmap]), the outside world [Env]
      (clock, psutil readings, dialog answers, and which library calls
      raise), the external calls [Effect], and the monad [M].
    - [EventLog]: [log_event], [clear_logs], [export_logs].
    - [Alert]: [trigger_alert], [flash_warning], [stop_alert].
    - [Monitor]: one iteration of the [check_security] loop, the loop
      itself driven by a list of worlds (one per iteration, which is its
      fuel), the abstract state machine of the spec and the refinement
      theorem, and the exception paths.
    - [Metrics]: [update_metrics] and its bounded FIFO history.
    - [Lifecycle]: start/stop/toggle, the startup animation, [on_closing].
    - [Startup]: [__init__] ([setup_system], the window and the widget
      constructors, [setup_charts]) and [run] up to the main loop, every
      Tk, os and pygame call in its order.
    - [System]: the whole program as a step relation: Tk callbacks, user
      commands and iterations of any live monitor thread interleave;
      [main] is [__main__] with its error dialog and exit status.

    ** What the theorems show

    - Policy ([C3], [C21], [C22]): the classification is the spec's
      policy; the threshold lies in [10, 100] on the slider's range and
      decreases as the sensitivity grows (against the spec's wording).
    - Monitor ([C1]-[C8]): one fault-free iteration is one step of the
      spec's Secure/Compromised machine, and a fault-free run of the
      loop refines the machine's run on the same samples; the counter
      grows by the number of Secure->Compromised edges; the alert tracks
      the status; when the alert toast raises, every later sample of
      one unplugging counts a new incident and a new flash chain; an
      exception in the [except] clause ends the thread with the flag
      still set.
    - Alert and EventLog ([C9]-[C17]): the effect of each handler on
      every branch, the tolerated audio failure, the never-cancelled
      flash chains, [clear_logs] clearing on "No", the INFO level of
      every durable record, and [export_logs] on its three paths (the
      file created by [open] and left empty when the write raises).
    - Metrics ([C18]-[C20]): the history is the last 100 samples in
      arrival order.
    - Lifecycle ([C23]-[C27]): start, stop and close on every branch;
      the startup animation ends after 50 firings; a stop during the
      animation is undone by its next step.
    - System ([C28]-[C32]): invariants over every reachable state of
      the interleaved program (bounded history, monotone counter), and,
      from any state that allows them, the interleavings that break the
      spec: a quick stop/start leaves two loops counting the same edge,
      a restart counts again an unplugging already counted, and a
      failing Tk call of the thread leaves an alert that no command can
      stop.
    - The process ([C33], [C34]): a machine without audio device exits
      with status 1 at [mixer.init()], against the spec, after the
      error dialog (whose arguments the code passes in the wrong
      order); without faults the main loop starts with the first sample
      and two timer callbacks.
    - Liveness and well-formedness ([C35], [C36]): once monitoring is
      off every monitor thread ends at its next turn; every pending
      animation callback carries an even step in [2, 100].

    ** Bounds and fuel

    The loop [check_security] is driven by a list of worlds, one per
    iteration: the list is its fuel, and every theorem about a run
    quantifies over all lists, so a run of any length is covered.  The
    startup animation is fired a fixed number of times (50), the number
    the code needs (steps 0, 2, ..., 98 reschedule, 100 ends).  The
    whole program is a step relation with no bound on the number of
    steps; its invariants are proved by induction on [rtc].

    ** Not modelled

    Layout is not modelled: fonts, padding, the geometry managers'
    arguments ([pack], [grid]) and the splash window's position are
    calls that may raise and change no state the program reads; a
    widget keeps the options the code gives it ([Startup.create]).
    [os.path] and [datetime] calls cannot raise and only name files.
    The GIL may switch threads inside an iteration of the loop; the
    model runs an iteration atomically, so the theorems about
    interleavings cover the schedules in which a thread's turn is not
    split: a stop clicked while a thread is inside [trigger_alert]
    (which can leave an alert raised after the stop) is outside them,
    and so no theorem claims that the stop-alert button always agrees
    with [alert_active].  What Tkinter does with an
    exception raised by a callback (it prints it and carries on) is
    modelled; what it prints is not.

    ** Modelling choices

    Python floats ([battery.percent], the [ttk.Scale] value) are modelled
    as rationals [Q]: the comparisons of the code are exact comparisons
    of the modelled values, and rounding of [(11 - s) * 10] in binary
    floating point is not modelled.  Python's unbounded [int] is [nat].
    Sleeping is not modelled: a [time.sleep] only marks where another
    thread or callback may run. *)

From stdpp Require Export base list strings gmap relations pretty.
From Stdlib Require Export QArith.
Close Scope Q_scope.

Declare Scope alarm_scope.
Delimit Scope alarm_scope with alarm.

(** The development's hint databases: [alarm] for the run and
    invariant lemmas, [alarm_rw] for rewriting. *)
Create HintDb alarm discriminated.
Create Rewrite HintDb alarm_rw.

(** ** Outcomes of a Python statement *)

(** A statement either finishes with a value or raises. *)
Inductive outcome (E A : Type) : Type :=
| Ok (a : A)
| Raise (e : E).
Arguments Ok {E A} a.
Arguments Raise {E A} e.

(** [PyM R S E A]: read the world [R], thread the state [S], raise [E].
    Mutations made before a [raise] stay in the state, as in Python. *)
Definition PyM (R S E A : Type) : Type := R -> S -> outcome E A * S.

Section PyM.
Context {R S E : Type}.

#[export] Instance PyM_ret : MRet (PyM R S E) :=
  fun A a _ s => (Ok a, s).

#[export] Instance PyM_bind : MBind (PyM R S E) :=
  fun A B f m r s =>
    match m r s with
    | (Ok a, s') => f a r s'
    | (Raise e, s') => (Raise e, s')
    end.

Definition ask : PyM R S E R := fun r s => (Ok r, s).
Definition get : PyM R S E S := fun _ s => (Ok s, s).
Definition put (s : S) : PyM R S E unit := fun _ _ => (Ok tt, s).
Definition modify (f : S -> S) : PyM R S E unit := fun _ s => (Ok tt, f s).
Definition raise {A} (e : E) : PyM R S E A := fun _ s => (Raise e, s).

(** [try: m except Exception as e: h e]; the handler starts from the
    state [m] left behind when it raised. *)
Definition try_except {A} (m : PyM R S E A) (h : E -> PyM R S E A)
    : PyM R S E A :=
  fun r s =>
    match m r s with
    | (Ok a, s') => (Ok a, s')
    | (Raise e, s') => h e r s'
    end.

(** Run [m] and return its exception as a value: the [try] part of a
    [try]/[except] whose handler must run outside the [try]. *)
Definition attempt {A} (m : PyM R S E A) : PyM R S E (A + E) :=
  fun r s =>
    match m r s with
    | (Ok a, s') => (Ok (inl a), s')
    | (Raise e, s') => (Ok (inr e), s')
    end.

(** [if b: m] with no [else]. *)
Definition when (b : bool) (m : PyM R S E unit) : PyM R S E unit :=
  if b then m else mret tt.

(** The final state of a run, whatever its outcome. *)
Definition final {A} (m : PyM R S E A) (r : R) (s : S) : S := snd (m r s).

(** ** Invariants of statements *)

(** [m] keeps [P] in every world and on every path, exceptions included. *)
Definition preserves {A} (P : S -> Prop) (m : PyM R S E A) : Prop :=
  forall r s, P s -> P (snd (m r s)).
End PyM.

Arguments ask {R S E}.
Arguments get {R S E}.

(** The one-character string holding a line feed (Python's ["\n"]). *)
Definition newline : string := String (Ascii.ascii_of_nat 10) EmptyString.

(** The last [n] elements of a list, in order. *)
Definition lastn {A} (n : nat) (l : list A) : list A := drop (length l - n) l.

#[export] Instance string_app_assoc : Assoc (=) String.append.
Proof.
  intros x y z. induction x as [|c x IH]; [done|].
  change (String c (x +:+ y +:+ z) = String c ((x +:+ y) +:+ z)). by rewrite IH.
Qed.

(** ** Lemmas on statements *)

Section PyMLemmas.
Context {R S E : Type}.

Lemma bind_ok {A B} (m : PyM R S E A) (f : A -> PyM R S E B) r s a s' :
  m r s = (Ok a, s') -> (m ≫= f) r s = f a r s'.
Proof. intros Hm. unfold mbind, PyM_bind. by rewrite Hm. Qed.

Lemma bind_raise {A B} (m : PyM R S E A) (f : A -> PyM R S E B) r s e s' :
  m r s = (Raise e, s') -> (m ≫= f) r s = (Raise e, s').
Proof. intros Hm. unfold mbind, PyM_bind. by rewrite Hm. Qed.

Lemma try_except_ok {A} (m : PyM R S E A) h r s a s' :
  m r s = (Ok a, s') -> try_except m h r s = (Ok a, s').
Proof. intros Hm. unfold try_except. by rewrite Hm. Qed.

Lemma try_except_raise {A} (m : PyM R S E A) h r s e s' :
  m r s = (Raise e, s') -> try_except m h r s = h e r s'.
Proof. intros Hm. unfold try_except. by rewrite Hm. Qed.

Lemma bind_assoc {A B C} (m : PyM R S E A) (f : A -> PyM R S E B)
    (g : B -> PyM R S E C) r s :
  ((m ≫= f) ≫= g) r s = (m ≫= (fun a => f a ≫= g)) r s.
Proof.
  unfold mbind, PyM_bind. destruct (m r s) as [[a|e] s']; [|done].
  reflexivity.
Qed.
End PyMLemmas.



Section Preserves.
Context {R S E : Type} (P : S -> Prop).

Lemma preserves_ret {A} (a : A) : preserves P (mret a : PyM R S E A).
Proof. by intros r s Hs. Qed.

Lemma preserves_bind {A B} (m : PyM R S E A) (f : A -> PyM R S E B) :
  preserves P m -> (forall a, preserves P (f a)) -> preserves P (m ≫= f).
Proof.
  intros Hm Hf r s Hs. unfold mbind, PyM_bind.
  specialize (Hm r s Hs). destruct (m r s) as [[a|e] s']; [apply Hf|]; exact Hm.
Qed.

Lemma preserves_ask : preserves P (ask : PyM R S E R).
Proof. by intros r s Hs. Qed.

Lemma preserves_get : preserves P (get : PyM R S E S).
Proof. by intros r s Hs. Qed.

Lemma preserves_modify (f : S -> S) :
  (forall s, P s -> P (f s)) -> preserves P (modify f : PyM R S E unit).
Proof. intros Hf r s Hs. exact (Hf s Hs). Qed.

Lemma preserves_raise {A} (e : E) : preserves P (raise e : PyM R S E A).
Proof. by intros r s Hs. Qed.

Lemma preserves_when b (m : PyM R S E unit) :
  preserves P m -> preserves P (when b m).
Proof. intros Hm. destruct b; [exact Hm | apply preserves_ret]. Qed.

Lemma preserves_attempt {A} (m : PyM R S E A) :
  preserves P m -> preserves P (attempt m).
Proof. intros Hm r s Hs. unfold attempt. specialize (Hm r s Hs). by destruct (m r s) as [[]]. Qed.
Lemma preserves_try_except {A} (m : PyM R S E A) (h : E -> PyM R S E A) :
  preserves P m -> (forall e, preserves P (h e)) -> preserves P (try_except m h).
Proof.
  intros Hm Hh r s Hs. unfold try_except. specialize (Hm r s Hs).
  destruct (m r s) as [[a|e] s']; [exact Hm | apply Hh, Hm].
Qed.
End Preserves.

(** What [m] keeps fixed of a projection [f], it keeps fixed of any
    function of [f]. *)
Lemma preserves_compose {R S E A B C} (f : S -> B) (g : B -> C) (m : PyM R S E A) d :
  (forall c, preserves (fun s => f s = c) m) -> preserves (fun s => g (f s) = d) m.
Proof. intros Hf r s Hs. by rewrite (Hf (f s) r s eq_refl). Qed.

#[export] Hint Resolve preserves_ret preserves_ask preserves_get preserves_raise
  preserves_when preserves_attempt : alarm.

(** Split an invariant goal along the binds of a statement. *)
Ltac preserves_split :=
  repeat first [ apply preserves_bind; [|intros ?]
               | apply preserves_when
               | apply preserves_attempt
               | apply preserves_try_except; [|intros ?]
               | progress case_match ].

#[export] Hint Resolve bind_ok bind_raise try_except_ok try_except_raise : alarm.

(** Unfold the monad's plumbing so that a concrete or fault-free run
    computes by [cbn]. *)
Ltac pym_unfold :=
  unfold mbind, mret, PyM_bind, PyM_ret, try_except, attempt, when, final,
    ask, get, put, modify, raise in *.

(** Read a map through a chain of inserts at other keys. *)
Ltac lookup_through :=
  repeat first [rewrite lookup_insert_ne by (intros ?; simplify_eq)
               | rewrite lookup_insert_eq].

(** Read a map through inserts at keys of other widgets, given as
    hypotheses [k.1 <> w]. *)
Ltac lookup_frame :=
  repeat (rewrite lookup_insert_ne by (intros <-; simpl in *; congruence)).

(** The two-colour toggle of [flash_warning], written either way. *)
Lemma toggle_eq (x a b : string) :
  (if bool_decide (x <> a) then a else b) = (if bool_decide (x = a) then b else a).
Proof. repeat case_bool_decide; congruence. Qed.



(** ** Generic list lemmas *)

Lemma length_lastn {A} n (l : list A) : length (lastn n l) = min n (length l).
Proof. unfold lastn. rewrite length_drop. lia. Qed.

Lemma lastn_all {A} n (l : list A) : length l <= n -> lastn n l = l.
Proof. intros H. unfold lastn. by replace (length l - n) with 0 by lia. Qed.

Lemma lastn_tail {A} n (l : list A) : length l = S n -> lastn n l = tail l.
Proof.
  intros Hl. unfold lastn. rewrite Hl. replace (S n - n) with 1 by lia.
  destruct l; reflexivity.
Qed.

Lemma lastn_lastn_snoc {A} n (l : list A) x :
  lastn n (lastn n l ++ [x]) = lastn n (l ++ [x]).
Proof.
  unfold lastn. rewrite <- drop_app_le by lia.
  rewrite drop_drop, length_drop, !length_app. simpl. f_equal. lia.
Qed.

#[export] Hint Rewrite @length_lastn : alarm_rw.

(** A computed option is [Some] of its own value: the form in which a
    concrete run is named without computing its whole result. *)
Lemma some_default {A} (o : option A) d :
  match o with Some _ => true | None => false end = true -> o = Some (default d o).
Proof. by destruct o. Qed.
