(* ===== verification/Policy.v ===== *)
(** * Policy: the battery classification of [check_security]

    Lines 342-347 of [src/alarm.py] decide, from one reading of
    [psutil.sensors_battery()] and the sensitivity slider, whether the
    machine is secure.  This file models that decision, the threshold
    [(11 - sensitivity) * 10], the policy the spec states (section 4.2),
    and proves that the code implements it. *)

From S2P Require Import Prelude.
From Stdlib Require Import Lqa.

Module Policy.

(** [psutil.sensors_battery()] returns [None] on a machine without a
    battery, or a named tuple whose [power_plugged] is [True], [False],
    or [None] when psutil cannot tell.  [secsleft] is never read. *)
Record Battery := mkBattery {
  percent : Q;
  power_plugged : option bool;
}.

(** Python truthiness of [battery.power_plugged]: [None] is falsy. *)
Definition truthy (v : option bool) : bool :=
  match v with Some b => b | None => false end.

(** [(11 - self.sensitivity.get()) * 10]; [ttk.Scale.get] is a float. *)
Definition threshold (sensitivity : Q) : Q := ((11 - sensitivity) * 10)%Q.

(** Line 343: [is_secure = battery.power_plugged if battery else True]. *)
Definition initial_is_secure (battery : option Battery) : bool :=
  match battery with
  | Some b => truthy (power_plugged b)
  | None => true
  end.

(** Line 346: [battery and battery.percent < (11 - s) * 10]. *)
Definition below_threshold (b : Battery) (sensitivity : Q) : bool :=
  if Qlt_le_dec (percent b) (threshold sensitivity) then true else false.

(** Lines 343-347 composed: the override of line 347 wins. *)
Definition is_secure (battery : option Battery) (sensitivity : Q) : bool :=
  match battery with
  | Some b => if below_threshold b sensitivity then false else initial_is_secure battery
  | None => initial_is_secure battery
  end.

(** The policy of the spec (section 4.2): without battery information
    the machine is secure; otherwise it is secure exactly when the
    charger is plugged in and the charge is at least the threshold. *)
Definition spec_secure (battery : option Battery) (sensitivity : Q) : Prop :=
  match battery with
  | None => True
  | Some b => power_plugged b = Some true /\ (threshold sensitivity <= percent b)%Q
  end.

#[export] Instance spec_secure_dec battery sensitivity :
  Decision (spec_secure battery sensitivity).
Proof.
  destruct battery as [b|]; simpl; [|apply _].
  destruct (Qlt_le_dec (percent b) (threshold sensitivity)) as [Hlt|Hle].
  - right. intros [_ Hle]. apply (Qlt_not_le _ _ Hlt Hle).
  - destruct (decide (power_plugged b = Some true)) as [Hp|Hp].
    + left. split; assumption.
    + right. intros [Hp' _]. contradiction.
Defined.

Lemma below_threshold_true b s :
  below_threshold b s = true <-> (percent b < threshold s)%Q.
Proof.
  unfold below_threshold. destruct (Qlt_le_dec _ _) as [H|H]; split; try done.
  intros Hlt. exfalso. apply (Qlt_not_le _ _ Hlt H).
Qed.

Lemma threshold_linear s : (threshold s == 110 - 10 * s)%Q.
Proof. unfold threshold. ring. Qed.

(** ** Properties *)

(** C3.  The classification of lines 342-347 implements the policy of
    the spec: a reading is classified secure exactly when there is no
    battery, or the charger is plugged in and the charge is at least
    [(11 - sensitivity) * 10].  In particular an unplugged machine is
    compromised whatever its charge, and so is a plugged-in machine
    whose charge is below the threshold. *)
Theorem is_secure_refines_spec battery sensitivity :
  is_secure battery sensitivity = true <-> spec_secure battery sensitivity.
Proof.
  destruct battery as [b|]; simpl; [|tauto].
  destruct (below_threshold b sensitivity) eqn:Hb.
  - apply below_threshold_true in Hb. split; [done|].
    intros [_ Hle]. destruct (Qlt_not_le _ _ Hb Hle).
  - assert (Hle : (threshold sensitivity <= percent b)%Q).
    { apply Qnot_lt_le. intros Hlt. apply below_threshold_true in Hlt. congruence. }
    destruct (power_plugged b) as [[]|]; simpl; intuition congruence.
Qed.

(** C21.  On the slider's range [1 <= sensitivity <= 10] the threshold
    lies between 10 and 100 percent. *)
Theorem threshold_range sensitivity :
  (1 <= sensitivity <= 10)%Q ->
  (10 <= threshold sensitivity <= 100)%Q.
Proof. intros [H1 H2]. rewrite threshold_linear. split; lra. Qed.

Lemma threshold_range_witness :
  (1 <= 5 <= 10)%Q /\ (10 <= threshold 5 <= 100)%Q.
Proof.
  assert (H : (1 <= 5 <= 10)%Q) by (split; vm_compute; discriminate).
  split; [exact H | exact (threshold_range 5 H)].
Defined.

(** C22.  The threshold strictly decreases as the sensitivity grows: a
    higher setting of the slider moves the cutoff [(11 - s) * 10] down,
    so the alarm fires only at a lower charge (the spec's section 3
    states the opposite direction). *)
Theorem threshold_strictly_decreasing s1 s2 :
  (s1 < s2)%Q -> (threshold s2 < threshold s1)%Q.
Proof. intros H. rewrite !threshold_linear. lra. Qed.

Lemma threshold_strictly_decreasing_witness :
  (4 < 5)%Q /\ (threshold 5 < threshold 4)%Q.
Proof.
  assert (H : (4 < 5)%Q) by (vm_compute; reflexivity).
  split; [exact H | exact (threshold_strictly_decreasing 4 5 H)].
Defined.

End Policy.
