(* ===== verification/App.v ===== *)
(** * App: the state of [SecurityMonitorGUI] and the outside world

    The attributes that [setup_system] (lines 24-44) and the widget
    constructors of [src/alarm.py] create, as one record [App]; the
    world a handler reads ([Env]: clock, psutil readings, dialog
    answers, and which library calls raise); the monad [M] of the
    class's methods; and the wrappers of the Tk, pygame and toast calls
    the methods make.  A Tk widget's options form a dictionary that
    [configure] writes and [cget] reads: they are a [gmap] keyed by
    (widget attribute name, option name). *)

From S2P Require Import Prelude Policy.
Import Policy.

Module App.

(** External calls of the class that can raise an exception. *)
Inductive Effect :=
| Psutil (fn : string)                  (* psutil.sensors_battery(), ... *)
| Tk (widget : string) (meth : string)  (* a Tk/ttk method on a widget *)
| Mixer (meth : string)                 (* pygame mixer calls *)
| ToastShow (title : string)            (* ToastNotification(...).show_toast() *)
| Dialog (first : string)               (* Messagebox.show_*(first, ...): its first argument *)
| FileOpen (name : string)              (* open(name, "w") *)
| FileWrite (name : string)             (* f.write(...) on that file *)
| Os (fn : string).                     (* os.makedirs, logging.basicConfig *)

#[export] Instance Effect_eq_dec : EqDecision Effect.
Proof. solve_decision. Defined.

(** A raised exception: where it came from and [str(e)]. *)
Record PyExc := mkExc { exc_effect : Effect; exc_str : string }.

(** One entry of [self.system_metrics] (lines 294-298). *)
Record Metric := mkMetric { m_timestamp : string; m_cpu : Q; m_memory : Q }.

(** A run of text inserted into the Text widget, with its tag. *)
Record Chunk := mkChunk { chunk_text : string; chunk_tag : string }.

(** A record of the logging file: [%(asctime)s - %(levelname)s - %(message)s]. *)
Record FileLine := mkFileLine { fl_time : string; fl_level : string; fl_message : string }.

(** A toast notification that was shown. *)
Record Toast := mkToast {
  toast_title : string; toast_message : string;
  toast_duration : nat; toast_alert : bool }.

(** [pygame.mixer]: initialised or quit, the loaded file, playing. *)
Record Music := mkMusic { mixer_ready : bool; music_loaded : option string; music_playing : bool }.

(** Callbacks registered with [self.root.after]. *)
Inductive Callback :=
| CbUpdateMetrics         (* line 304: after(1000, self.update_metrics) *)
| CbFlashWarning          (* line 407: after(500, self.flash_warning) *)
| CbAnimate (step : nat)  (* line 471: after(20, animate_progress, step + 2) *)
| CbFinishStartup.        (* line 562: after(2000, lambda: self.finish_startup(..)) *)

#[export] Instance Callback_eq_dec : EqDecision Callback.
Proof. solve_decision. Defined.

Record App := mkApp {
  monitoring_active : bool; (* self.monitoring_active, line 40 *)
  alert_active : bool; (* self.alert_active, line 41 *)
  incident_count : nat; (* self.incident_count, line 42 *)
  system_metrics : list Metric; (* self.system_metrics, line 43 *)
  sensitivity : Q; (* value of the ttk.Scale, lines 161-166 *)
  sound_var : bool; (* value of the tk.BooleanVar, line 170 *)
  widgets : gmap (string * string) string; (* Tk widget options *)
  log_text : list Chunk; (* contents of the Text widget *)
  log_file : list FileLine; (* records of the logging file *)
  music : Music; (* pygame.mixer *)
  toasts : list Toast; (* toasts shown, oldest first *)
  after_queue : list Callback; (* pending root.after callbacks *)
  files : gmap string string;     (* files this process wrote: name -> contents *)
}.

Definition set_monitoring_active (v : bool) (s : App) : App :=
  {|
    monitoring_active := v; alert_active := alert_active s;
    incident_count := incident_count s;
    system_metrics := system_metrics s; sensitivity := sensitivity s;
    sound_var := sound_var s; widgets := widgets s;
    log_text := log_text s; log_file := log_file s; music := music s;
    toasts := toasts s; after_queue := after_queue s; files := files s |}.
Definition set_alert_active (v : bool) (s : App) : App :=
  {|
    monitoring_active := monitoring_active s; alert_active := v;
    incident_count := incident_count s;
    system_metrics := system_metrics s; sensitivity := sensitivity s;
    sound_var := sound_var s; widgets := widgets s;
    log_text := log_text s; log_file := log_file s; music := music s;
    toasts := toasts s; after_queue := after_queue s; files := files s |}.
Definition set_incident_count (v : nat) (s : App) : App :=
  {|
    monitoring_active := monitoring_active s;
    alert_active := alert_active s; incident_count := v;
    system_metrics := system_metrics s; sensitivity := sensitivity s;
    sound_var := sound_var s; widgets := widgets s;
    log_text := log_text s; log_file := log_file s; music := music s;
    toasts := toasts s; after_queue := after_queue s; files := files s |}.
Definition set_system_metrics (v : list Metric) (s : App) : App :=
  {|
    monitoring_active := monitoring_active s;
    alert_active := alert_active s; incident_count := incident_count s;
    system_metrics := v; sensitivity := sensitivity s;
    sound_var := sound_var s; widgets := widgets s;
    log_text := log_text s; log_file := log_file s; music := music s;
    toasts := toasts s; after_queue := after_queue s; files := files s |}.
Definition set_sensitivity (v : Q) (s : App) : App :=
  {|
    monitoring_active := monitoring_active s;
    alert_active := alert_active s; incident_count := incident_count s;
    system_metrics := system_metrics s; sensitivity := v;
    sound_var := sound_var s; widgets := widgets s;
    log_text := log_text s; log_file := log_file s; music := music s;
    toasts := toasts s; after_queue := after_queue s; files := files s |}.
Definition set_sound_var (v : bool) (s : App) : App :=
  {|
    monitoring_active := monitoring_active s;
    alert_active := alert_active s; incident_count := incident_count s;
    system_metrics := system_metrics s; sensitivity := sensitivity s;
    sound_var := v; widgets := widgets s; log_text := log_text s;
    log_file := log_file s; music := music s; toasts := toasts s;
    after_queue := after_queue s; files := files s |}.
Definition set_widgets (v : gmap (string * string) string) (s : App) : App :=
  {|
    monitoring_active := monitoring_active s;
    alert_active := alert_active s; incident_count := incident_count s;
    system_metrics := system_metrics s; sensitivity := sensitivity s;
    sound_var := sound_var s; widgets := v; log_text := log_text s;
    log_file := log_file s; music := music s; toasts := toasts s;
    after_queue := after_queue s; files := files s |}.
Definition set_log_text (v : list Chunk) (s : App) : App :=
  {|
    monitoring_active := monitoring_active s;
    alert_active := alert_active s; incident_count := incident_count s;
    system_metrics := system_metrics s; sensitivity := sensitivity s;
    sound_var := sound_var s; widgets := widgets s; log_text := v;
    log_file := log_file s; music := music s; toasts := toasts s;
    after_queue := after_queue s; files := files s |}.
Definition set_log_file (v : list FileLine) (s : App) : App :=
  {|
    monitoring_active := monitoring_active s;
    alert_active := alert_active s; incident_count := incident_count s;
    system_metrics := system_metrics s; sensitivity := sensitivity s;
    sound_var := sound_var s; widgets := widgets s;
    log_text := log_text s; log_file := v; music := music s;
    toasts := toasts s; after_queue := after_queue s; files := files s |}.
Definition set_music (v : Music) (s : App) : App :=
  {|
    monitoring_active := monitoring_active s;
    alert_active := alert_active s; incident_count := incident_count s;
    system_metrics := system_metrics s; sensitivity := sensitivity s;
    sound_var := sound_var s; widgets := widgets s;
    log_text := log_text s; log_file := log_file s; music := v;
    toasts := toasts s; after_queue := after_queue s; files := files s |}.
Definition set_toasts (v : list Toast) (s : App) : App :=
  {|
    monitoring_active := monitoring_active s;
    alert_active := alert_active s; incident_count := incident_count s;
    system_metrics := system_metrics s; sensitivity := sensitivity s;
    sound_var := sound_var s; widgets := widgets s;
    log_text := log_text s; log_file := log_file s; music := music s;
    toasts := v; after_queue := after_queue s; files := files s |}.
Definition set_after_queue (v : list Callback) (s : App) : App :=
  {|
    monitoring_active := monitoring_active s;
    alert_active := alert_active s; incident_count := incident_count s;
    system_metrics := system_metrics s; sensitivity := sensitivity s;
    sound_var := sound_var s; widgets := widgets s;
    log_text := log_text s; log_file := log_file s; music := music s;
    toasts := toasts s; after_queue := v; files := files s |}.
Definition set_files (v : gmap string string) (s : App) : App :=
  {|
    monitoring_active := monitoring_active s;
    alert_active := alert_active s; incident_count := incident_count s;
    system_metrics := system_metrics s; sensitivity := sensitivity s;
    sound_var := sound_var s; widgets := widgets s;
    log_text := log_text s; log_file := log_file s; music := music s;
    toasts := toasts s; after_queue := after_queue s; files := v |}.

(** The world at the moment a handler runs. *)
Record Env := mkEnv {
  env_clock : string;            (* datetime.now().strftime("%H:%M:%S") *)
  env_asctime : string;          (* logging's %(asctime)s *)
  env_stamp : string;            (* datetime.now().strftime('%Y%m%d_%H%M%S') *)
  env_elapsed : string;          (* str(datetime.now() - start_time).split('.')[0] *)
  env_battery : option Battery;  (* psutil.sensors_battery() *)
  env_cpu : Q;                   (* psutil.cpu_percent() *)
  env_memory : Q;                (* psutil.virtual_memory().percent *)
  env_answer : option string;    (* Messagebox.show_question: button, or None *)
  env_faults : list (Effect * string)  (* calls that raise, with str(e) *)
}.

Definition M : Type -> Type := PyM Env App PyExc.

(** [s⟦w, o⟧]: option [o] of widget [w] in state [s], as [w.cget(o)]
    would read it (when set). *)
Notation "s ⟦ w , o ⟧" := (widgets s !! (w, o))
  (at level 1, w at level 200, o at level 200, format "s ⟦ w ,  o ⟧") : alarm_scope.

(** Equality of calls as a boolean test that computes on partly known
    calls (a [Tk] call is never a [Mixer] call, whatever its method). *)
Definition effect_eqb (e1 e2 : Effect) : bool :=
  match e1, e2 with
  | Psutil a, Psutil b => String.eqb a b
  | Tk w m, Tk w' m' => String.eqb w w' && String.eqb m m'
  | Mixer a, Mixer b => String.eqb a b
  | ToastShow a, ToastShow b => String.eqb a b
  | Dialog a, Dialog b => String.eqb a b
  | FileOpen a, FileOpen b => String.eqb a b
  | FileWrite a, FileWrite b => String.eqb a b
  | Os a, Os b => String.eqb a b
  | _, _ => false
  end.

(** The exception message the world attaches to a call, if it raises. *)
Fixpoint fault_of (e : Effect) (fs : list (Effect * string)) : option string :=
  match fs with
  | [] => None
  | (e', msg) :: fs' => if effect_eqb e e' then Some msg else fault_of e fs'
  end.

(** An external call: raises when the world says it does. *)
Definition call (e : Effect) : M unit :=
  fun env s =>
    match fault_of e (env_faults env) with
    | Some msg => (Raise (mkExc e msg), s)
    | None => (Ok tt, s)
    end.

(** [widget.configure(opt=value, ...)]. *)
Definition configure (w : string) (opts : list (string * string)) : M unit :=
  call (Tk w "configure");;
  modify (fun s => set_widgets (foldl (fun m '(o, v) => <[(w, o) := v]> m) (widgets s) opts) s).

(** [widget.cget(opt)]; an option never set reads as the empty string. *)
Definition cget (w o : string) : M string :=
  call (Tk w "cget");;
  s ← get; mret (default "" (widgets s !! (w, o))).

(** [self.root.after(ms, cb)]: the callback joins the pending queue. *)
Definition after (cb : Callback) : M unit :=
  call (Tk "root" "after");;
  modify (fun s => set_after_queue (after_queue s ++ [cb]) s).

(** [ToastNotification(...).show_toast()]. *)
Definition show_toast (t : Toast) : M unit :=
  call (ToastShow (toast_title t));;
  modify (fun s => set_toasts (toasts s ++ [t]) s).

(** A world with the given clock and battery reading in which no call
    raises and no dialog is answered; the concrete scenarios use it. *)
Definition calm_env (clock : string) (battery : option Battery) : Env :=
  mkEnv clock clock clock clock battery 0%Q 0%Q None [].

(** A world in which no call raises. *)
Definition fault_free (env : Env) : Prop := env_faults env = [].

(** A statement that returns normally in every world where no call
    raises. *)
Definition no_raise {A} (m : M A) : Prop :=
  forall env s, fault_free env -> exists a, fst (m env s) = Ok a.

(** The same world with every call succeeding. *)
Definition without_faults (env : Env) : Env :=
  mkEnv (env_clock env) (env_asctime env) (env_stamp env) (env_elapsed env) (env_battery env)
    (env_cpu env) (env_memory env) (env_answer env) [].

(** A statement that reads nothing of the world but whether its calls
    raise: when it returns, it returns what it returns in the same world
    without faults. *)
Definition oblivious {A} (m : M A) : Prop :=
  forall env s a s', m env s = (Ok a, s') -> m (without_faults env) s = (Ok a, s').

(** The widget options the constructors set (lines 46-271): the text,
    style and state given to every widget the class keeps as an
    attribute, the value labels of the four metric cards, the colours
    of the Text widget and of its tags, the progress bar's mode.
    Layout (fonts, padding, grid and pack positions) is not kept. *)
Definition init_widgets : gmap (string * string) string :=
  list_to_map [
    (("root", "title"), "Système de Surveillance Pro");
    (("cpu_label", "text"), "CPU: 0%"); (("cpu_label", "style"), "primary.Inverse.TLabel");
    (("memory_label", "text"), "RAM: 0%"); (("memory_label", "style"), "primary.Inverse.TLabel");
    (("status_label", "text"), "■ Système Inactif");
    (("status_label", "style"), "primary.Inverse.TLabel");
    (("start_button", "text"), "▶ Démarrer la surveillance");
    (("start_button", "style"), "success.TButton");
    (("stop_alert_button", "text"), "🔕 Désactiver l'alerte");
    (("stop_alert_button", "style"), "danger.TButton");
    (("stop_alert_button", "state"), "disabled");
    (("incident_label", "text"), "🚨 Incidents: 0"); (("incident_label", "style"), "primary.TLabel");
    (("time_label", "text"), "⏱️ Durée: 00:00:00"); (("time_label", "style"), "primary.TLabel");
    (("metric_card_0", "text"), "12.5V"); (("metric_card_1", "text"), "25%");
    (("metric_card_2", "text"), "4.2GB"); (("metric_card_3", "text"), "45°C");
    (("log_text", "background"), "#2b3e50"); (("log_text", "foreground"), "#ffffff");
    (("log_text", "yscrollcommand"), "scrollbar.set");
    (("log_text", "tag timestamp"), "#888888"); (("log_text", "tag info"), "#4CAF50");
    (("log_text", "tag warning"), "#FFC107"); (("log_text", "tag alert"), "#F44336");
    (("progress", "mode"), "indeterminate")].

(** The state after [__init__] (lines 18-22, 39-44, 46-271); [Startup]
    proves that running the constructors produces it. *)
Definition init_app : App := {|
  monitoring_active := false; alert_active := false; incident_count := 0;
  system_metrics := []; sensitivity := 5%Q; sound_var := true;
  widgets := init_widgets; log_text := []; log_file := [];
  music := mkMusic true None false; toasts := []; after_queue := []; files := ∅ |}.

(** The attributes the alert and log handlers never touch. *)
Record core_eq (s s' : App) : Prop := {
  ce_monitoring : monitoring_active s' = monitoring_active s;
  ce_incidents : incident_count s' = incident_count s;
  ce_metrics : system_metrics s' = system_metrics s;
  ce_sensitivity : sensitivity s' = sensitivity s;
  ce_sound : sound_var s' = sound_var s;
  ce_mixer : mixer_ready (music s') = mixer_ready (music s) }.

#[export] Instance core_eq_equiv : Equivalence core_eq.
Proof.
  split.
  - intros s. split; reflexivity.
  - intros s1 s2 []. split; congruence.
  - intros s1 s2 s3 [] []. split; congruence.
Qed.

(** ** Lemmas *)

Lemma call_fault_free e env s : fault_free env -> call e env s = (Ok tt, s).
Proof. unfold fault_free, call. intros ->. reflexivity. Qed.

Lemma preserves_call P e : preserves P (call e).
Proof. intros env s Hs. unfold call. by destruct (fault_of _ _). Qed.

(** A call that only writes widget options keeps any property of the
    other attributes. *)
Lemma preserves_configure P w opts :
  (forall s v, P s -> P (set_widgets v s)) -> preserves P (configure w opts).
Proof.
  intros HP. unfold configure. apply preserves_bind; [apply preserves_call|].
  intros _. apply preserves_modify. intros s. apply HP.
Qed.

Lemma preserves_after P cb :
  (forall s v, P s -> P (set_after_queue v s)) -> preserves P (after cb).
Proof.
  intros HP. unfold after. apply preserves_bind; [apply preserves_call|].
  intros _. apply preserves_modify. intros s. apply HP.
Qed.

#[export] Hint Resolve preserves_call : alarm.

Lemma oblivious_ret {A} (a : A) : oblivious (mret a).
Proof. by intros env s b s' H. Qed.

Lemma oblivious_bind {A B} (m : M A) (f : A -> M B) :
  oblivious m -> (forall a, oblivious (f a)) -> oblivious (m ≫= f).
Proof.
  intros Hm Hf env s b s' H. unfold mbind, PyM_bind in *.
  destruct (m env s) as [[a|e] s1] eqn:E; [|discriminate].
  rewrite (Hm env s a s1 E). exact (Hf a env s1 b s' H).
Qed.

Lemma oblivious_call e : oblivious (call e).
Proof. intros env s [] s' H. unfold call in H. by case_match; simplify_eq. Qed.

Lemma oblivious_modify f : oblivious (modify f).
Proof. by intros env s [] s' H. Qed.

#[export] Hint Resolve oblivious_ret oblivious_call oblivious_modify : alarm.

Lemma no_raise_ret {A} (a : A) : no_raise (mret a).
Proof. by exists a. Qed.

Lemma no_raise_bind {A B} (m : M A) (f : A -> M B) :
  no_raise m -> (forall a, no_raise (f a)) -> no_raise (m ≫= f).
Proof.
  intros Hm Hf env s Hff. unfold mbind, PyM_bind.
  destruct (Hm env s Hff) as [a Ha]. destruct (m env s) as [o s1]. cbn in Ha; subst o.
  exact (Hf a env s1 Hff).
Qed.

Lemma no_raise_call e : no_raise (call e).
Proof. intros env s Hff. exists tt. unfold call. by rewrite Hff. Qed.

Lemma no_raise_modify f : no_raise (modify f).
Proof. by exists tt. Qed.

Lemma no_raise_ask : no_raise ask.
Proof. intros env s _. by exists env. Qed.

Lemma no_raise_get : no_raise get.
Proof. intros env s _. by exists s. Qed.

#[export] Hint Resolve no_raise_ret no_raise_call no_raise_modify no_raise_ask no_raise_get : alarm.

Lemma without_faults_free env : fault_free (without_faults env).
Proof. reflexivity. Qed.

(** Split an [oblivious] goal along the binds of a statement. *)
Ltac oblivious_split :=
  repeat first [apply oblivious_bind; [|intros ?] | progress case_match];
  auto with alarm.

(** Split a [no_raise] goal along the binds of a statement. *)
Ltac no_raise_split :=
  repeat first [apply no_raise_bind; [|intros ?] | progress case_match];
  auto with alarm.

(** Run a handler in a fault-free world: unfold the wrappers, let every
    call succeed, and compute. *)
Ltac ff_run Hff :=
  try unfold fault_free in Hff;
  repeat (pym_unfold; unfold configure, cget, after, show_toast, call in *;
          cbn; rewrite ?Hff;
          try (match goal with H : mixer_ready (music _) = true |- _ => rewrite !H end);
          cbn).

End App.
