(* ===== verification/EventLog.v ===== *)
(** * EventLog: [log_event], [clear_logs] and [export_logs]

    [log_event] (lines 506-529 of [src/alarm.py]) picks an icon and a
    colour for the level from the [styles] dictionary, falling back to
    the "info" style for an unknown level, writes a timestamp and the
    message into the Text widget, and hands the message to
    [logging.info], so that the durable file records every event at
    level INFO.  [clear_logs] (lines 325-333) asks for confirmation and
    empties the widget; [export_logs] (lines 312-323) writes the
    widget's text to a time-stamped file and shows a toast. *)

From S2P Require Import Prelude Policy App.
Import App.

Module EventLog.

(** An entry of the [styles] dictionary of [log_event]. *)
Record Style := mkStyle { icon : string; color : string }.

#[export] Instance Style_inhabited : Inhabited Style := populate (mkStyle "" "").

(** Lines 511-515. *)
Definition styles : gmap string Style :=
  <["info" := mkStyle "ℹ️" "#4CAF50"]>
  (<["warning" := mkStyle "⚠️" "#FFC107"]>
  (<["alert" := mkStyle "🚨" "#F44336"]> ∅)).

(** Line 517: [styles.get(level, styles["info"])]. *)
Definition style_for (level : string) : Style :=
  default (styles !!! "info") (styles !! level).

(** Line 520: [f"{style['icon']} {message}"]. *)
Definition formatted (level message : string) : string :=
  icon (style_for level) +:+ " " +:+ message.

(** [self.log_text.tag_configure(level, foreground=...)]. *)
Definition tag_configure (tag color : string) : M unit :=
  call (Tk "log_text" "tag_configure");;
  modify (fun s => set_widgets (<[("log_text", "tag " +:+ tag) := color]> (widgets s)) s).

(** [self.log_text.insert(tk.END, text, tag)]. *)
Definition insert_text (text tag : string) : M unit :=
  call (Tk "log_text" "insert");;
  modify (fun s => set_log_text (log_text s ++ [mkChunk text tag]) s).

(** [logging.info(message)]: the handler's [emit] catches its own
    errors (an I/O error, or an emoji the file's default encoding cannot
    encode, since line 30 gives no encoding) and reports them on stderr
    through [handleError]: the record is then lost and nothing raises. *)
Definition logging_info (message : string) : M unit :=
  env ← ask;
  match fault_of (Os "logging.emit") (env_faults env) with
  | Some _ => mret tt
  | None => modify (fun s => set_log_file (log_file s ++ [mkFileLine (env_asctime env) "INFO" message]) s)
  end.

(** Lines 506-529. *)
Definition log_event (message level : string) : M unit :=
  env ← ask;
  let timestamp := env_clock env in
  let style := style_for level in
  let msg := formatted level message in
  tag_configure level (color style);;
  insert_text ("[" +:+ timestamp +:+ "] ") "timestamp";;
  insert_text (msg +:+ newline) level;;
  call (Tk "log_text" "see");;
  logging_info msg.

Arguments log_event : simpl never.

(** Python truthiness of the value returned by a question dialog: the
    name of the button pressed, or [None] when the window is closed. *)
Definition answer_truthy (a : option string) : bool :=
  match a with Some s => negb (bool_decide (s = "")) | None => false end.

(** Lines 325-333. *)
Definition clear_logs : M unit :=
  call (Dialog "Confirmation");;
  env ← ask;
  when (answer_truthy (env_answer env))
    (call (Tk "log_text" "delete");;
     modify (set_log_text []);;
     log_event "Journal effacé" "info").

(** [self.log_text.get("1.0", tk.END)]: the text of the widget with the
    newline Tk always keeps at its end. *)
Definition text_contents (s : App) : string :=
  foldr (fun c acc => chunk_text c +:+ acc) "" (log_text s) +:+ newline.

(** Lines 312-323.  [open(filename, "w")] creates or empties the file;
    the text is then read from the widget and written.  A write that
    raises is modelled as writing nothing (a buffered write may have
    flushed a prefix first). *)
Definition export_logs : M unit :=
  env ← ask;
  let filename := "security_logs_" +:+ env_stamp env +:+ ".txt" in
  call (FileOpen filename);;
  modify (fun s => set_files (<[filename := EmptyString]> (files s)) s);;
  call (Tk "log_text" "get");;
  call (FileWrite filename);;
  modify (fun s => set_files (<[filename := text_contents s]> (files s)) s);;
  show_toast (mkToast "Export réussi" ("Logs exportés vers " +:+ filename) 3000 false).

(** The two chunks and the file record one [log_event] call writes. *)
Definition event_chunks (env : Env) (message level : string) : list Chunk :=
  [mkChunk ("[" +:+ env_clock env +:+ "] ") "timestamp";
   mkChunk (formatted level message +:+ newline) level].

Definition event_record (env : Env) (message level : string) : FileLine :=
  mkFileLine (env_asctime env) "INFO" (formatted level message).

(** The state after one fault-free [log_event]. *)
Definition logged (env : Env) (message level : string) (s : App) : App :=
  set_log_file (log_file s ++ [event_record env message level])
    (set_log_text (log_text s ++ event_chunks env message level)
      (set_widgets (<[("log_text", "tag " +:+ level) := color (style_for level)]> (widgets s)) s)).

(** The Text widget's calls do not raise in this world, and the
    logging handler writes its records. *)
Definition log_quiet (env : Env) : Prop :=
  (forall meth, fault_of (Tk "log_text" meth) (env_faults env) = None) /\
  fault_of (Os "logging.emit") (env_faults env) = None.

Lemma log_event_ok env s message level :
  log_quiet env -> log_event message level env s = (Ok tt, logged env message level s).
Proof.
  intros [Hq He]. unfold log_event, tag_configure, insert_text, logging_info.
  pym_unfold. unfold call. cbn. rewrite !Hq, He. cbn.
  unfold logged, event_chunks. cbn. by rewrite <- app_assoc.
Qed.

Lemma style_for_unknown level :
  level <> "info" -> level <> "warning" -> level <> "alert" ->
  style_for level = mkStyle "ℹ️" "#4CAF50".
Proof.
  intros H1 H2 H3. unfold style_for, styles.
  rewrite !lookup_insert_ne by congruence. reflexivity.
Qed.

(** Run a handler that logs, in a fault-free world. *)
Ltac ff_log Hff :=
  ff_run Hff;
  repeat (rewrite log_event_ok by (split; [intros ?|]; rewrite Hff; reflexivity); ff_run Hff).

(** ** Properties *)

(** C15.  A fault-free [log_event message level] appends to the Text
    widget the timestamp "[HH:MM:SS] " and the icon of the level
    followed by the message, and appends to the durable file one record
    with level INFO, whatever the level asked for ("warning" and
    "alert" included); the security state is untouched. *)
Theorem log_event_appends env s message level :
  fault_free env ->
  let s' := final (log_event message level) env s in
  log_text s' = log_text s ++
    [mkChunk ("[" +:+ env_clock env +:+ "] ") "timestamp";
     mkChunk (icon (style_for level) +:+ " " +:+ message +:+ newline) level] /\
  log_file s' = log_file s ++
    [mkFileLine (env_asctime env) "INFO" (icon (style_for level) +:+ " " +:+ message)] /\
  alert_active s' = alert_active s /\ incident_count s' = incident_count s /\
  monitoring_active s' = monitoring_active s.
Proof.
  intros Hff. unfold final. rewrite log_event_ok by (split; [intros ?|]; rewrite Hff; reflexivity).
  split_and!; try reflexivity. cbn. unfold event_chunks, formatted.
  by rewrite <- !(assoc String.append).
Qed.

Lemma log_event_appends_witness :
  fault_free (calm_env "12:00:00" None) /\
  log_file (final (log_event "x" "alert") (calm_env "12:00:00" None) init_app) =
    [mkFileLine "12:00:00" "INFO" "🚨 x"].
Proof.
  assert (H : fault_free (calm_env "12:00:00" None)) by reflexivity.
  split; [exact H|].
  destruct (log_event_appends _ init_app "x" "alert" H) as (_ & Hf & _).
  rewrite Hf. reflexivity.
Defined.

(** C16.  [clear_logs] clears the Text widget whenever the question
    dialog returns a truthy value: [Messagebox.show_question] returns the
    name of the button pressed, so answering "No" clears it too.  After
    the clear the widget holds only the "Journal effacé" entry, and the
    durable file keeps every earlier record and gains that one. *)
Theorem clear_logs_clears env s :
  fault_free env -> answer_truthy (env_answer env) = true ->
  let s' := final clear_logs env s in
  log_text s' = event_chunks env "Journal effacé" "info" /\
  log_file s' = log_file s ++ [event_record env "Journal effacé" "info"].
Proof.
  intros Hff Hans. unfold clear_logs. ff_run Hff. rewrite Hans. ff_run Hff.
  rewrite log_event_ok by (split; [intros ?|]; rewrite Hff; reflexivity). cbn. split; reflexivity.
Qed.

Lemma clear_logs_clears_witness :
  let env := mkEnv "09:30:00" "09:30:00" "x" "0:00:01" None 0%Q 0%Q (Some "No") [] in
  fault_free env /\ answer_truthy (env_answer env) = true /\
  log_text (final clear_logs env
              (set_log_text [mkChunk "old" "info"] init_app)) =
    event_chunks env "Journal effacé" "info".
Proof.
  intros env.
  assert (Hff : fault_free env) by reflexivity.
  assert (Hans : answer_truthy (env_answer env) = true) by reflexivity.
  split_and!; [exact Hff | exact Hans |].
  exact (proj1 (clear_logs_clears env _ Hff Hans)).
Defined.

(** C17.  [export_logs] on its three paths.  Without faults it writes
    the widget's text, followed by the newline Tk keeps at its end, to
    [security_logs_<YYYYmmdd_HHMMSS>.txt], touches no other file and
    shows the "Export réussi" toast.  When [open] raises, the exception
    leaves the handler before any effect.  When [open] succeeds but the
    write raises, the file has been created or emptied by [open] and no
    toast is shown. *)
Theorem export_logs_spec env s :
  let name := "security_logs_" +:+ env_stamp env +:+ ".txt" in
  (fault_free env ->
   let s' := final export_logs env s in
   files s' !! name = Some (text_contents s) /\
   (forall n, n <> name -> files s' !! n = files s !! n) /\
   log_text s' = log_text s /\
   toasts s' = toasts s ++ [mkToast "Export réussi" ("Logs exportés vers " +:+ name) 3000 false]) /\
  (forall msg, fault_of (FileOpen name) (env_faults env) = Some msg ->
   export_logs env s = (Raise (mkExc (FileOpen name) msg), s)) /\
  (forall msg, fault_of (FileOpen name) (env_faults env) = None ->
   fault_of (Tk "log_text" "get") (env_faults env) = None ->
   fault_of (FileWrite name) (env_faults env) = Some msg ->
   exists s', export_logs env s = (Raise (mkExc (FileWrite name) msg), s') /\
     files s' !! name = Some EmptyString /\ toasts s' = toasts s).
Proof.
  intros name. split_and!.
  - intros Hff. unfold export_logs. ff_run Hff. fold name.
    split_and!; [by rewrite lookup_insert_eq | | done | done].
    intros n Hn. by rewrite !lookup_insert_ne by congruence.
  - intros msg Hmsg. unfold export_logs. pym_unfold. unfold call. cbn.
    fold name. rewrite Hmsg. reflexivity.
  - intros msg Ho Hg Hw. unfold export_logs. pym_unfold. unfold call. cbn.
    fold name. rewrite Ho, Hg, Hw. eexists. split; [reflexivity|]. cbn.
    split; [by rewrite lookup_insert_eq | done].
Qed.

Lemma export_logs_spec_witness :
  let env := calm_env "10:00:00" None in
  fault_free env /\
  files (final export_logs env (set_log_text [mkChunk "a" "info"] init_app))
    !! "security_logs_10:00:00.txt" = Some ("a" +:+ newline).
Proof.
  intros env.
  assert (Hff : fault_free env) by reflexivity.
  split; [exact Hff|].
  destruct (proj1 (export_logs_spec env (set_log_text [mkChunk "a" "info"] init_app)) Hff)
    as (Hf & _). exact Hf.
Defined.

End EventLog.
