(* ===== verification/Alert.v ===== *)
(** * Alert: [trigger_alert], [flash_warning] and [stop_alert]

    Lines 371-426 of [src/alarm.py].  [trigger_alert] marks the alert
    active, enables the "stop alert" button, logs the message at level
    "alert", starts the looping alarm sound when sound is on (an audio
    error is caught and logged as a warning), starts the flashing and
    shows a toast.  [flash_warning] toggles the status label's
    foreground and the log's background and re-registers itself with
    [root.after(500, ...)] for as long as the alert is active.
    [stop_alert] clears the alert, stops the sound, disables the
    button, resets the colours, logs and shows a toast.

    The pygame mixer raises "mixer not initialized" on any music call
    once [mixer.quit()] has run; [mixer_call] models that. *)

From S2P Require Import Prelude Policy App EventLog.
Import App EventLog.

Module Alert.

(** A call to [pygame.mixer.music.<meth>]. *)
Definition mixer_call (meth : string) : M unit :=
  call (Mixer meth);;
  s ← get;
  if mixer_ready (music s) then mret tt
  else raise (mkExc (Mixer meth) "mixer not initialized").

(** [mixer.music.load("alarm.mp3")]. *)
Definition music_load (file : string) : M unit :=
  mixer_call "music.load";;
  modify (fun s => set_music (mkMusic (mixer_ready (music s)) (Some file) false) s).

(** [mixer.music.play(-1)]: loop forever. *)
Definition music_play : M unit :=
  mixer_call "music.play";;
  modify (fun s => set_music (mkMusic (mixer_ready (music s)) (music_loaded (music s)) true) s).

(** [mixer.music.stop()]. *)
Definition music_stop : M unit :=
  mixer_call "music.stop";;
  modify (fun s => set_music (mkMusic (mixer_ready (music s)) (music_loaded (music s)) false) s).

(** [self.sound_var.get()]. *)
Definition sound_get : M bool :=
  call (Tk "sound_var" "get");;
  s ← get; mret (sound_var s).

(** Lines 394-407. *)
Definition flash_warning : M unit :=
  s ← get;
  when (alert_active s)
    (current_color ← cget "status_label" "foreground";
     let new_color := if bool_decide (current_color <> "#F44336") then "#F44336" else "#FFFFFF" in
     configure "status_label" [("foreground", new_color)];;
     current_bg ← cget "log_text" "background";
     let new_bg := if bool_decide (current_bg <> "#3B1A1A") then "#3B1A1A" else "#2b3e50" in
     configure "log_text" [("background", new_bg)];;
     after CbFlashWarning).

(** Lines 371-392. *)
Definition trigger_alert (message : string) : M unit :=
  modify (set_alert_active true);;
  configure "stop_alert_button" [("state", "normal")];;
  log_event message "alert";;
  sound ← sound_get;
  when sound
    (try_except (music_load "alarm.mp3";; music_play)
       (fun e => log_event ("Erreur audio: " +:+ exc_str e) "warning"));;
  flash_warning;;
  show_toast (mkToast "Alerte de Sécurité" message 5000 true).

(** Lines 409-426. *)
Definition stop_alert : M unit :=
  modify (set_alert_active false);;
  music_stop;;
  configure "stop_alert_button" [("state", "disabled")];;
  configure "status_label" [("foreground", "#FFFFFF")];;
  configure "log_text" [("background", "#2b3e50")];;
  log_event "🔕 Alerte désactivée" "info";;
  show_toast (mkToast "Alerte désactivée" "Le système est revenu à la normale" 3000 false).

(** [if self.alert_active: self.stop_alert()], the guard every internal
    caller puts around [stop_alert] (lines 356-357, 495-496, 545-546). *)
Definition dismiss_if_active : M unit :=
  s ← get; when (alert_active s) stop_alert.

Arguments trigger_alert : simpl never.
Arguments stop_alert : simpl never.
Arguments flash_warning : simpl never.

(** A world in which loading the alarm sound raises. *)
Definition audio_fault_env (msg : string) : Env :=
  mkEnv "12:00:00" "12:00:00" "12:00:00" "0:00:01" None 0%Q 0%Q None
    [(Mixer "music.load", msg)].

(** Number of [flash_warning] callbacks pending in the Tk loop. *)
Definition flash_chains (s : App) : nat :=
  length (filter (fun cb => cb = CbFlashWarning) (after_queue s)).

Lemma flash_chains_push s s' :
  after_queue s' = after_queue s ++ [CbFlashWarning] -> flash_chains s' = S (flash_chains s).
Proof.
  unfold flash_chains. intros ->.
  rewrite filter_app, length_app, filter_cons_True, filter_nil by done. simpl. lia.
Qed.

Lemma flash_chains_frame s s' :
  after_queue s' = after_queue s -> flash_chains s' = flash_chains s.
Proof. unfold flash_chains. by intros ->. Qed.

Lemma stop_alert_ok env s :
  fault_free env -> mixer_ready (music s) = true ->
  exists s', stop_alert env s = (Ok tt, s') /\
    alert_active s' = false /\ core_eq s s' /\
    music_playing (music s') = false /\
    widgets s' !! ("stop_alert_button", "state") = Some "disabled" /\
    after_queue s' = after_queue s /\
    log_text s' = log_text s ++ event_chunks env "🔕 Alerte désactivée" "info" /\
    (forall k, k <> ("stop_alert_button", "state") -> k <> ("status_label", "foreground") ->
       k.1 <> "log_text" -> widgets s' !! k = widgets s !! k).
Proof.
  intros Hff Hmix. unfold stop_alert, music_stop, mixer_call. ff_log Hff.
  eexists; split; [reflexivity|]. cbn.
  split_and!; try done; try (constructor; done); try by lookup_through.
  intros k H1 H2 H3. by lookup_frame.
Qed.

Lemma trigger_alert_ok env s message :
  fault_free env -> mixer_ready (music s) = true ->
  exists s', trigger_alert message env s = (Ok tt, s') /\
    alert_active s' = true /\ core_eq s s' /\
    music_playing (music s') = (if sound_var s then true else music_playing (music s)) /\
    widgets s' !! ("stop_alert_button", "state") = Some "normal" /\
    after_queue s' = after_queue s ++ [CbFlashWarning] /\
    toasts s' = toasts s ++ [mkToast "Alerte de Sécurité" message 5000 true] /\
    log_text s' = log_text s ++ event_chunks env message "alert".
Proof.
  intros Hff Hmix.
  unfold trigger_alert, sound_get, flash_warning, music_load, music_play, mixer_call.
  ff_log Hff. destruct (sound_var s) eqn:Hsound; ff_log Hff;
  (eexists; split; [reflexivity|]; cbn;
   split_and!; try done; try (constructor; done); try by lookup_through).
Qed.

(** ** Properties *)

(** C9.  A fault-free [trigger_alert message] (mixer initialised) sets
    [alert_active], enables the "stop alert" button, logs the message
    at level "alert", leaves the alarm playing in a loop when sound is
    on (and the music as it was when it is off), registers exactly one
    more [flash_warning] callback, and shows the alert toast. *)
Theorem trigger_alert_spec env s message :
  fault_free env -> mixer_ready (music s) = true ->
  let s' := final (trigger_alert message) env s in
  alert_active s' = true /\
  widgets s' !! ("stop_alert_button", "state") = Some "normal" /\
  music_playing (music s') = (if sound_var s then true else music_playing (music s)) /\
  flash_chains s' = S (flash_chains s) /\
  toasts s' = toasts s ++ [mkToast "Alerte de Sécurité" message 5000 true] /\
  log_text s' = log_text s ++ event_chunks env message "alert" /\
  incident_count s' = incident_count s.
Proof.
  intros Hff Hmix.
  destruct (trigger_alert_ok env s message Hff Hmix)
    as (s' & Hrun & Ha & [] & Hm & Hb & Hq & Ht & Hl).
  unfold final. rewrite Hrun. cbn. split_and!; try done.
  by apply flash_chains_push.
Qed.

Lemma trigger_alert_spec_witness :
  fault_free (calm_env "12:00:00" None) /\ mixer_ready (music init_app) = true /\
  music_playing (music (final (trigger_alert "x") (calm_env "12:00:00" None) init_app)) = true.
Proof.
  assert (Hff : fault_free (calm_env "12:00:00" None)) by reflexivity.
  assert (Hmix : mixer_ready (music init_app) = true) by reflexivity.
  split_and!; [exact Hff | exact Hmix |].
  destruct (trigger_alert_spec _ init_app "x" Hff Hmix) as (_ & _ & Hm & _). exact Hm.
Defined.

(** C10.  An audio failure does not stop the alert (spec, section 7):
    when loading [alarm.mp3] raises, [trigger_alert] still completes
    without raising, the alert is active, the failure is logged as the
    warning "Erreur audio: <message>" right after the alert entry, the
    flashing starts and the toast is shown; the alarm does not play. *)
Theorem trigger_alert_audio_failure env s message msg :
  env_faults env = [(Mixer "music.load", msg)] ->
  mixer_ready (music s) = true -> sound_var s = true ->
  exists s', trigger_alert message env s = (Ok tt, s') /\
    alert_active s' = true /\
    log_text s' = log_text s ++ event_chunks env message "alert" ++
                  event_chunks env ("Erreur audio: " +:+ msg) "warning" /\
    music_playing (music s') = music_playing (music s) /\
    after_queue s' = after_queue s ++ [CbFlashWarning] /\
    toasts s' = toasts s ++ [mkToast "Alerte de Sécurité" message 5000 true].
Proof.
  intros Hf Hmix Hsound.
  unfold trigger_alert, sound_get, flash_warning, music_load, music_play, mixer_call.
  ff_log Hf. rewrite Hsound. ff_log Hf.
  eexists; split; [reflexivity|]. cbn. split_and!; try done.
  by rewrite <- app_assoc.
Qed.

Lemma trigger_alert_audio_failure_witness :
  env_faults (audio_fault_env "No file 'alarm.mp3' found") =
    [(Mixer "music.load", "No file 'alarm.mp3' found")] /\
  mixer_ready (music init_app) = true /\ sound_var init_app = true /\
  exists s', trigger_alert "x" (audio_fault_env "No file 'alarm.mp3' found") init_app = (Ok tt, s') /\
    alert_active s' = true /\
    log_text s' = log_text init_app ++
      event_chunks (audio_fault_env "No file 'alarm.mp3' found") "x" "alert" ++
      event_chunks (audio_fault_env "No file 'alarm.mp3' found")
        ("Erreur audio: " +:+ "No file 'alarm.mp3' found") "warning" /\
    music_playing (music s') = music_playing (music init_app) /\
    after_queue s' = after_queue init_app ++ [CbFlashWarning] /\
    toasts s' = toasts init_app ++ [mkToast "Alerte de Sécurité" "x" 5000 true].
Proof.
  assert (Hf : env_faults (audio_fault_env "No file 'alarm.mp3' found") =
                 [(Mixer "music.load", "No file 'alarm.mp3' found")]) by reflexivity.
  assert (Hmix : mixer_ready (music init_app) = true) by reflexivity.
  assert (Hs : sound_var init_app = true) by reflexivity.
  split_and!; [exact Hf | exact Hmix | exact Hs |].
  exact (trigger_alert_audio_failure _ init_app "x" _ Hf Hmix Hs).
Defined.

(** C11.  A fault-free [stop_alert] (mixer initialised) clears
    [alert_active], stops the music, disables the "stop alert" button,
    resets the status label to white and the log background to its
    normal colour, logs "Alerte désactivée" and shows the toast; it
    cancels no pending [flash_warning] callback. *)
Theorem stop_alert_spec env s :
  fault_free env -> mixer_ready (music s) = true ->
  let s' := final stop_alert env s in
  alert_active s' = false /\ music_playing (music s') = false /\
  widgets s' !! ("stop_alert_button", "state") = Some "disabled" /\
  widgets s' !! ("status_label", "foreground") = Some "#FFFFFF" /\
  widgets s' !! ("log_text", "background") = Some "#2b3e50" /\
  log_text s' = log_text s ++ event_chunks env "🔕 Alerte désactivée" "info" /\
  flash_chains s' = flash_chains s.
Proof.
  intros Hff Hmix. unfold final, stop_alert, music_stop, mixer_call. ff_log Hff.
  cbn. split_and!; try done; by lookup_through.
Qed.

Lemma stop_alert_spec_witness :
  fault_free (calm_env "12:00:00" None) /\ mixer_ready (music init_app) = true /\
  alert_active (final stop_alert (calm_env "12:00:00" None)
                  (set_alert_active true init_app)) = false.
Proof.
  assert (Hff : fault_free (calm_env "12:00:00" None)) by reflexivity.
  assert (Hmix : mixer_ready (music (set_alert_active true init_app)) = true) by reflexivity.
  split_and!; [exact Hff | exact Hmix |].
  exact (proj1 (stop_alert_spec _ _ Hff Hmix)).
Defined.

(** C12.  Dismissal as the code performs it internally,
    [if self.alert_active: self.stop_alert()], is idempotent in a
    fault-free world; [stop_alert] itself is not: a second call logs
    "Alerte désactivée" and shows the toast a second time. *)
Theorem dismiss_idempotent env s :
  fault_free env -> mixer_ready (music s) = true ->
  final dismiss_if_active env (final dismiss_if_active env s) = final dismiss_if_active env s /\
  log_text (final stop_alert env (final stop_alert env s)) =
    log_text s ++ event_chunks env "🔕 Alerte désactivée" "info"
               ++ event_chunks env "🔕 Alerte désactivée" "info".
Proof.
  intros Hff Hmix. split.
  - unfold final, dismiss_if_active. ff_run Hff.
    destruct (alert_active s) eqn:Ha; ff_run Hff; [|by rewrite Ha].
    destruct (stop_alert_ok env s Hff Hmix) as (s' & -> & Hoff & _). cbn.
    rewrite Hoff. reflexivity.
  - unfold final.
    destruct (stop_alert_ok env s Hff Hmix) as (s1 & -> & _ & [] & _ & _ & _ & Hl1 & _). cbn.
    destruct (stop_alert_ok env s1 Hff ltac:(congruence)) as (s2 & -> & _ & _ & _ & _ & _ & Hl2 & _).
    cbn. by rewrite Hl2, Hl1, <- app_assoc.
Qed.

Lemma dismiss_idempotent_witness :
  fault_free (calm_env "12:00:00" None) /\ mixer_ready (music init_app) = true /\
  final dismiss_if_active (calm_env "12:00:00" None)
    (final dismiss_if_active (calm_env "12:00:00" None) (set_alert_active true init_app)) =
  final dismiss_if_active (calm_env "12:00:00" None) (set_alert_active true init_app).
Proof.
  assert (Hff : fault_free (calm_env "12:00:00" None)) by reflexivity.
  assert (Hmix : mixer_ready (music (set_alert_active true init_app)) = true) by reflexivity.
  split_and!; [exact Hff | exact Hmix |].
  exact (proj1 (dismiss_idempotent _ _ Hff Hmix)).
Defined.



(** C13.  A [stop_alert] followed by a new [trigger_alert] before the
    pending [flash_warning] fires leaves two flashing chains with the
    alert active: each toggles the colours every 500 ms, so the two
    together flip them twice per period. *)
Theorem retrigger_doubles_flashing env s message :
  fault_free env -> mixer_ready (music s) = true ->
  let s' := final (trigger_alert message;; stop_alert;; trigger_alert message) env s in
  alert_active s' = true /\ flash_chains s' = flash_chains s + 2.
Proof.
  intros Hff Hmix. unfold final. pym_unfold.
  destruct (trigger_alert_ok env s message Hff Hmix) as (s1 & -> & _ & [] & _ & _ & Hq1 & _).
  destruct (stop_alert_ok env s1 Hff ltac:(congruence)) as (s2 & -> & _ & [] & _ & _ & Hq2 & _).
  destruct (trigger_alert_ok env s2 message Hff ltac:(congruence))
    as (s3 & -> & Ha3 & _ & _ & _ & Hq3 & _).
  cbn. split; [exact Ha3|].
  rewrite (flash_chains_push s2 s3 Hq3), (flash_chains_frame s1 s2 Hq2),
    (flash_chains_push s s1 Hq1). lia.
Qed.

Lemma retrigger_doubles_flashing_witness :
  fault_free (calm_env "12:00:00" None) /\ mixer_ready (music init_app) = true /\
  flash_chains (final (trigger_alert "x";; stop_alert;; trigger_alert "x")
                  (calm_env "12:00:00" None) init_app) = 2.
Proof.
  assert (Hff : fault_free (calm_env "12:00:00" None)) by reflexivity.
  assert (Hmix : mixer_ready (music init_app) = true) by reflexivity.
  split_and!; [exact Hff | exact Hmix |].
  exact (proj2 (retrigger_doubles_flashing _ _ "x" Hff Hmix)).
Defined.

End Alert.
