(* ===== verification/Monitor.v ===== *)
(** * Monitor: the [check_security] loop

    [check_security] (lines 335-369 of [src/alarm.py]) is the body of
    the monitor thread.  Its local [was_secure] starts at [True]; every
    iteration reads the battery, classifies the reading with [Policy],
    and on a Secure->Compromised edge increments [incident_count],
    updates the incident label and calls [trigger_alert]; on a
    Compromised->Secure edge it logs the return to normal and stops an
    active alert.  Any exception inside the [try] is logged as a
    warning; [was_secure] keeps the value it had when the exception was
    raised.  An exception raised by the handler itself ends the thread.

    [iteration] is one pass of the [while] body; [run_loop] runs the
    loop against a list of worlds, one per iteration, which is its fuel.
    The spec's state machine (section 4.2) is [SpecMachine]; the
    refinement theorem relates a fault-free [iteration] to one of its
    steps. *)

From S2P Require Import Prelude Policy App EventLog Alert.
Import Policy App EventLog Alert.

Module Monitor.

Definition alert_message : string := "⚠️ ALERTE DE SÉCURITÉ: Alimentation compromise!".
Definition back_to_normal : string := "✅ Système sécurisé - Retour à la normale".

(** [psutil.sensors_battery()]. *)
Definition sensors_battery : M (option Battery) :=
  call (Psutil "sensors_battery");;
  env ← ask; mret (env_battery env).

(** [self.sensitivity.get()]. *)
Definition sensitivity_get : M Q :=
  call (Tk "sensitivity" "get");;
  s ← get; mret (sensitivity s).

(** Lines 342-347: the slider is read only when there is a battery
    ([battery and ...] short-circuits). *)
Definition classify : M bool :=
  battery ← sensors_battery;
  match battery with
  | Some b =>
      sens ← sensitivity_get;
      mret (if below_threshold b sens then false else initial_is_secure battery)
  | None => mret (initial_is_secure battery)
  end.

(** Lines 349-352. *)
Definition on_incident : M unit :=
  modify (fun s => set_incident_count (S (incident_count s)) s);;
  s ← get;
  configure "incident_label" [("text", "🚨 Incidents: " +:+ pretty (incident_count s))];;
  trigger_alert alert_message.

(** Lines 354-357. *)
Definition on_recovery : M unit :=
  log_event back_to_normal "info";;
  dismiss_if_active.

(** Lines 342-357: the part of the [try] before [was_secure = is_secure]. *)
Definition evaluate (was_secure : bool) : M bool :=
  is_secure ← classify;
  (if was_secure && negb is_secure then on_incident
   else if negb was_secure && is_secure then on_recovery
   else mret tt);;
  mret is_secure.

(** Lines 361-363. *)
Definition update_time_label : M unit :=
  env ← ask;
  configure "time_label" [("text", "⏱️ Durée: " +:+ env_elapsed env)].

(** Lines 367-369: the [except] clause; [was_secure] is returned as it
    stood when the exception was raised. *)
Definition handler (e : PyExc) (was_secure : bool) : M bool :=
  log_event ("Erreur de surveillance: " +:+ exc_str e) "warning";;
  mret was_secure.

(** Lines 341-369: one pass of the [while] body, returning the new
    value of the local [was_secure]. *)
Definition iteration (was_secure : bool) : M bool :=
  r ← attempt (evaluate was_secure);
  match r with
  | inr e => handler e was_secure
  | inl is_secure =>
      r' ← attempt update_time_label;
      match r' with
      | inl _ => mret is_secure
      | inr e => handler e is_secure
      end
  end.

(** How a run of the thread ends. *)
Inductive LoopResult :=
| Running (was_secure : bool) (s : App)  (* the worlds ran out: still looping *)
| Exited (s : App)                      (* [while self.monitoring_active] was false *)
| Died (e : PyExc) (s : App).            (* the handler raised: the thread ends *)

(** Lines 340-369, one world per iteration. *)
Fixpoint run_loop (worlds : list Env) (was_secure : bool) (s : App) : LoopResult :=
  match worlds with
  | [] => Running was_secure s
  | env :: rest =>
      if monitoring_active s then
        match iteration was_secure env s with
        | (Ok was', s') => run_loop rest was' s'
        | (Raise e, s') => Died e s'
        end
      else Exited s
  end.

(** Lines 335-340: [was_secure = True] and the loop. *)
Definition check_security (worlds : list Env) (s : App) : LoopResult :=
  run_loop worlds true s.

Definition result_state (r : LoopResult) : App :=
  match r with Running _ s | Exited s | Died _ s => s end.

(** ** The spec's state machine (section 4.2) *)

Module SpecMachine.
Inductive Status := Secure | Compromised.

Record State := mkState { status : Status; incidents : nat; alert : bool }.

Definition init : State := mkState Secure 0 false.

(** One evaluation of a sample that the policy classifies as
    [secure] or not. *)
Definition step (st : State) (secure : bool) : State :=
  match status st, secure with
  | Secure, false => mkState Compromised (S (incidents st)) true
  | Compromised, true => mkState Secure (incidents st) false
  | Secure, true => st
  | Compromised, false => st
  end.

Definition secure_status (st : State) : bool :=
  match status st with Secure => true | Compromised => false end.

(** The spec's invariant of section 3: the alert is active exactly in
    the Compromised state. *)
Definition consistent (st : State) : Prop := alert st = negb (secure_status st).
End SpecMachine.

(** The spec's classification of a sample. *)
Definition spec_reading (env : Env) (sens : Q) : bool :=
  bool_decide (spec_secure (env_battery env) sens).

(** The thread's local and the object's attributes, seen as the spec's
    state. *)
Definition abs (was_secure : bool) (s : App) : SpecMachine.State :=
  SpecMachine.mkState (if was_secure then SpecMachine.Secure else SpecMachine.Compromised)
    (incident_count s) (alert_active s).

(** Secure->Compromised edges along a sequence of classifications. *)
Fixpoint edges (was_secure : bool) (readings : list bool) : nat :=
  match readings with
  | [] => 0
  | r :: rest => (if was_secure && negb r then 1 else 0) + edges r rest
  end.

(** The classifications of a list of worlds under a sensitivity. *)
Definition readings (worlds : list Env) (sens : Q) : list bool :=
  map (fun env => is_secure (env_battery env) sens) worlds.

(** Concrete worlds for the scenarios: a battery at [p] percent with
    the charger plugged in or not, read in a world where nothing raises. *)
Definition battery_env (p : Q) (plugged : bool) : Env :=
  calm_env "12:00:00" (Some (mkBattery p (Some plugged))).

(** A world in which showing the alert toast raises, as Tk calls made
    from the monitor thread can. *)
Definition toast_fault_env : Env :=
  mkEnv "12:00:00" "12:00:00" "12:00:00" "0:00:01" (Some (mkBattery 50 (Some false)))
    0%Q 0%Q None [(ToastShow "Alerte de Sécurité", "main thread is not in main loop")].

(** A world in which reading the battery raises and so does writing
    to the Text widget. *)
Definition broken_env : Env :=
  mkEnv "12:00:00" "12:00:00" "12:00:00" "0:00:01" None 0%Q 0%Q None
    [(Psutil "sensors_battery", "no battery sensor");
     (Tk "log_text" "tag_configure", "main thread is not in main loop")].

(** The object just after [start_monitoring] set [monitoring_active]. *)
Definition monitoring_app : App := set_monitoring_active true init_app.

(** ** Run lemmas *)

Lemma classify_ok env s :
  fault_free env ->
  classify env s = (Ok (is_secure (env_battery env) (sensitivity s)), s).
Proof.
  intros Hff. unfold classify, sensors_battery, sensitivity_get. ff_run Hff.
  destruct (env_battery env); ff_run Hff; reflexivity.
Qed.

Lemma on_incident_ok env s :
  fault_free env -> mixer_ready (music s) = true ->
  exists s', on_incident env s = (Ok tt, s') /\
    incident_count s' = S (incident_count s) /\ alert_active s' = true /\
    monitoring_active s' = monitoring_active s /\ sensitivity s' = sensitivity s /\
    mixer_ready (music s') = true.
Proof.
  intros Hff Hmix. unfold on_incident. ff_run Hff.
  match goal with |- context [trigger_alert ?m env ?st] =>
    destruct (trigger_alert_ok env st m Hff Hmix) as (s' & -> & Hact & [] & _) end.
  exists s'. cbn in *. split_and!; congruence.
Qed.

Lemma on_recovery_ok env s :
  fault_free env -> mixer_ready (music s) = true ->
  exists s', on_recovery env s = (Ok tt, s') /\
    alert_active s' = false /\ core_eq s s'.
Proof.
  intros Hff Hmix. unfold on_recovery, dismiss_if_active.
  ff_log Hff.
  destruct (alert_active s) eqn:Hact; cbn.
  - match goal with |- context [stop_alert env ?st] =>
      destruct (stop_alert_ok env st Hff Hmix) as (s' & -> & Hoff & Hce & _) end.
    exists s'. split_and!; [done | done |]. by rewrite <- Hce.
  - eexists; split_and!; [reflexivity | exact Hact | split; done].
Qed.

Lemma evaluate_ok env s was :
  fault_free env -> mixer_ready (music s) = true ->
  exists s', evaluate was env s = (Ok (is_secure (env_battery env) (sensitivity s)), s') /\
    abs (is_secure (env_battery env) (sensitivity s)) s' =
      SpecMachine.step (abs was s) (is_secure (env_battery env) (sensitivity s)) /\
    monitoring_active s' = monitoring_active s /\ sensitivity s' = sensitivity s /\
    mixer_ready (music s') = true.
Proof.
  intros Hff Hmix. unfold evaluate. pym_unfold. rewrite classify_ok by exact Hff.
  cbn. destruct (is_secure _ _); destruct was; cbn.
  - exists s. by split_and!.
  - destruct (on_recovery_ok env s Hff Hmix) as (s' & -> & Hoff & []).
    exists s'. unfold abs. split_and!; try congruence.
  - destruct (on_incident_ok env s Hff Hmix) as (s' & -> & Hc & Ha & Hm & Hs & Hx).
    exists s'. unfold abs. split_and!; try congruence.
  - exists s. by split_and!.
Qed.

Lemma update_time_label_ok env s :
  fault_free env ->
  update_time_label env s =
    (Ok tt, set_widgets (<[("time_label", "text") := "⏱️ Durée: " +:+ env_elapsed env]> (widgets s)) s).
Proof. intros Hff. unfold update_time_label. ff_run Hff. reflexivity. Qed.

Lemma iteration_ok env s was :
  fault_free env -> mixer_ready (music s) = true ->
  exists s', iteration was env s = (Ok (is_secure (env_battery env) (sensitivity s)), s') /\
    abs (is_secure (env_battery env) (sensitivity s)) s' =
      SpecMachine.step (abs was s) (is_secure (env_battery env) (sensitivity s)) /\
    monitoring_active s' = monitoring_active s /\ sensitivity s' = sensitivity s /\
    mixer_ready (music s') = true.
Proof.
  intros Hff Hmix. unfold iteration. pym_unfold.
  destruct (evaluate_ok env s was Hff Hmix) as (s1 & -> & Habs & Hm & Hs & Hx). cbn.
  rewrite update_time_label_ok by exact Hff. cbn.
  eexists; split; [reflexivity|]. by split_and!.
Qed.

Lemma spec_reading_is_secure env sens :
  spec_reading env sens = is_secure (env_battery env) sens.
Proof.
  unfold spec_reading. destruct (is_secure _ _) eqn:E.
  - apply bool_decide_eq_true_2. by apply is_secure_refines_spec.
  - apply bool_decide_eq_false_2. rewrite <- is_secure_refines_spec. congruence.
Qed.

Lemma step_incidents st r :
  SpecMachine.incidents (SpecMachine.step st r) =
    SpecMachine.incidents st + (if SpecMachine.secure_status st && negb r then 1 else 0).
Proof. destruct st as [[] n a], r; cbn; lia. Qed.

Lemma step_secure_status st r : SpecMachine.secure_status (SpecMachine.step st r) = r.
Proof. by destruct st as [[] n a], r. Qed.

Lemma step_consistent st r :
  SpecMachine.consistent st -> SpecMachine.consistent (SpecMachine.step st r).
Proof. unfold SpecMachine.consistent. destruct st as [[] n a], r; cbn; congruence. Qed.

Lemma spec_run_incidents rs st :
  SpecMachine.incidents (foldl SpecMachine.step st rs) =
    SpecMachine.incidents st + edges (SpecMachine.secure_status st) rs.
Proof.
  revert st. induction rs as [|r rs IH]; intros st; cbn; [lia|].
  rewrite IH, step_incidents, step_secure_status. lia.
Qed.

Lemma spec_run_consistent rs st :
  SpecMachine.consistent st -> SpecMachine.consistent (foldl SpecMachine.step st rs).
Proof.
  revert st. induction rs as [|r rs IH]; intros st Hc; cbn; [done|].
  apply IH, step_consistent, Hc.
Qed.

Lemma spec_run_status rs st :
  SpecMachine.secure_status (foldl SpecMachine.step st rs) =
    default (SpecMachine.secure_status st) (last rs).
Proof.
  revert st. induction rs as [|r rs IH]; intros st; [done|].
  rewrite last_cons. cbn [foldl]. rewrite IH, step_secure_status. by destruct (last rs).
Qed.

Lemma edges_compromised rs :
  Forall (fun r => r = false) rs -> edges false rs = 0.
Proof. induction 1 as [|r rs -> _ IH]; cbn; [done | exact IH]. Qed.

Lemma abs_secure_status was s : SpecMachine.secure_status (abs was s) = was.
Proof. by destruct was. Qed.

Lemma run_loop_ok worlds was s :
  Forall fault_free worlds -> monitoring_active s = true -> mixer_ready (music s) = true ->
  exists was' s', run_loop worlds was s = Running was' s' /\
    abs was' s' = foldl SpecMachine.step (abs was s) (readings worlds (sensitivity s)) /\
    sensitivity s' = sensitivity s.
Proof.
  revert was s. induction worlds as [|env rest IH]; intros was s Hff Hmon Hmix.
  { exists was, s. by split_and!. }
  apply Forall_cons in Hff as [Hff Hrest]. cbn. rewrite Hmon.
  destruct (iteration_ok env s was Hff Hmix) as (s1 & -> & Habs & Hm & Hs & Hx).
  destruct (IH (is_secure (env_battery env) (sensitivity s)) s1 Hrest ltac:(congruence) Hx)
    as (was' & s' & -> & Habs' & Hs').
  exists was', s'. split_and!; [done| |congruence].
  rewrite Habs', Hs, Habs. reflexivity.
Qed.

(** A sample in a world where only the alert toast raises. *)
Lemma iteration_toast_fault env s msg :
  env_faults env = [(ToastShow "Alerte de Sécurité", msg)] ->
  mixer_ready (music s) = true -> is_secure (env_battery env) (sensitivity s) = false ->
  exists s', iteration true env s = (Ok true, s') /\
    incident_count s' = S (incident_count s) /\ flash_chains s' = S (flash_chains s) /\
    monitoring_active s' = monitoring_active s /\ sensitivity s' = sensitivity s /\
    mixer_ready (music s') = true.
Proof.
  intros Hf Hmix Hsec.
  assert (Hq : log_quiet env) by (split; [intros ?|]; rewrite Hf; reflexivity).
  unfold iteration, evaluate. pym_unfold.
  assert (Hc : classify env s = (Ok (is_secure (env_battery env) (sensitivity s)), s)).
  { unfold classify, sensors_battery, sensitivity_get. ff_run Hf.
    destruct (env_battery env); ff_run Hf; reflexivity. }
  rewrite Hc, Hsec. cbn.
  unfold on_incident, trigger_alert, sound_get, flash_warning, music_load, music_play, mixer_call,
    handler.
  ff_run Hf. rewrite !log_event_ok by exact Hq. ff_run Hf.
  destruct (sound_var s); ff_run Hf; rewrite ?log_event_ok by exact Hq; ff_run Hf;
    (eexists; split; [reflexivity|]); cbn; split_and!; try done;
    unfold flash_chains; cbn; rewrite filter_app, length_app, filter_cons_True, filter_nil by done;
    cbn; lia.
Qed.

(** A sample in a world where only enabling the stop-alert button raises. *)
Lemma iteration_button_fault env s msg :
  env_faults env = [(Tk "stop_alert_button" "configure", msg)] ->
  is_secure (env_battery env) (sensitivity s) = false ->
  exists s', iteration true env s = (Ok true, s') /\
    incident_count s' = S (incident_count s) /\ alert_active s' = true /\
    widgets s' !! ("stop_alert_button", "state") = widgets s !! ("stop_alert_button", "state") /\
    monitoring_active s' = monitoring_active s /\ sensitivity s' = sensitivity s /\
    mixer_ready (music s') = mixer_ready (music s).
Proof.
  intros Hf Hsec.
  assert (Hq : log_quiet env) by (split; [intros ?|]; rewrite Hf; reflexivity).
  unfold iteration, evaluate. pym_unfold.
  assert (Hc : classify env s = (Ok (is_secure (env_battery env) (sensitivity s)), s)).
  { unfold classify, sensors_battery, sensitivity_get. ff_run Hf.
    destruct (env_battery env); ff_run Hf; reflexivity. }
  rewrite Hc, Hsec. cbn.
  unfold on_incident, trigger_alert, handler.
  ff_run Hf. rewrite !log_event_ok by exact Hq. ff_run Hf.
  eexists; split; [reflexivity|]. cbn. split_and!; try done. by lookup_through.
Qed.

(** ** Properties *)

(** C2.  Refinement, one iteration: in a world where no call raises
    (and with the mixer initialised), one pass of the [while] body of
    [check_security] returns the spec's classification of the reading
    as the new [was_secure], and maps the spec's state (status from the
    local [was_secure], incident counter, alert flag) to the state the
    spec's machine reaches on that sample. *)
Theorem iteration_refines env s was :
  fault_free env -> mixer_ready (music s) = true ->
  exists s', iteration was env s = (Ok (spec_reading env (sensitivity s)), s') /\
    abs (spec_reading env (sensitivity s)) s' =
      SpecMachine.step (abs was s) (spec_reading env (sensitivity s)).
Proof.
  intros Hff Hmix. rewrite spec_reading_is_secure.
  destruct (iteration_ok env s was Hff Hmix) as (s' & Hrun & Habs & _).
  by exists s'.
Qed.

Lemma iteration_refines_witness :
  fault_free (battery_env 50 false) /\ mixer_ready (music monitoring_app) = true /\
  exists s', iteration true (battery_env 50 false) monitoring_app =
      (Ok (spec_reading (battery_env 50 false) (sensitivity monitoring_app)), s') /\
    abs (spec_reading (battery_env 50 false) (sensitivity monitoring_app)) s' =
      SpecMachine.step (abs true monitoring_app)
        (spec_reading (battery_env 50 false) (sensitivity monitoring_app)).
Proof.
  assert (Hff : fault_free (battery_env 50 false)) by reflexivity.
  assert (Hmix : mixer_ready (music monitoring_app) = true) by reflexivity.
  split_and!; [exact Hff | exact Hmix |].
  exact (iteration_refines _ _ true Hff Hmix).
Defined.

(** C1.  Refinement, the loop: started with monitoring on, a fault-free
    run of [check_security] over any number of samples keeps looping,
    and its final [was_secure], incident counter and alert flag are the
    state the spec's machine reaches from [Secure] on the same samples. *)
Theorem check_security_refines worlds s :
  Forall fault_free worlds -> monitoring_active s = true -> mixer_ready (music s) = true ->
  exists was s', check_security worlds s = Running was s' /\
    abs was s' = foldl SpecMachine.step (abs true s)
                   (map (fun env => spec_reading env (sensitivity s)) worlds).
Proof.
  intros Hff Hmon Hmix.
  destruct (run_loop_ok worlds true s Hff Hmon Hmix) as (was & s' & Hrun & Habs & _).
  exists was, s'. split; [exact Hrun|]. rewrite Habs. f_equal.
  unfold readings. apply map_ext. intros env. by rewrite spec_reading_is_secure.
Qed.

Lemma check_security_refines_witness :
  Forall fault_free [battery_env 70 true; battery_env 50 false] /\
  monitoring_active monitoring_app = true /\ mixer_ready (music monitoring_app) = true /\
  exists was s', check_security [battery_env 70 true; battery_env 50 false] monitoring_app =
      Running was s' /\
    abs was s' = foldl SpecMachine.step (abs true monitoring_app)
      (map (fun env => spec_reading env (sensitivity monitoring_app))
         [battery_env 70 true; battery_env 50 false]).
Proof.
  assert (Hff : Forall fault_free [battery_env 70 true; battery_env 50 false])
    by (repeat constructor).
  assert (Hmon : monitoring_active monitoring_app = true) by reflexivity.
  assert (Hmix : mixer_ready (music monitoring_app) = true) by reflexivity.
  split_and!; [exact Hff | exact Hmon | exact Hmix |].
  exact (check_security_refines _ _ Hff Hmon Hmix).
Defined.

(** C4.  In a fault-free run started with monitoring on, the thread
    increments [incident_count] exactly once per Secure->Compromised
    edge of the classified samples (starting from [was_secure = True]):
    repeated Compromised samples are not counted again. *)
Theorem check_security_counts_edges worlds s :
  Forall fault_free worlds -> monitoring_active s = true -> mixer_ready (music s) = true ->
  incident_count (result_state (check_security worlds s)) =
    incident_count s + edges true (readings worlds (sensitivity s)).
Proof.
  intros Hff Hmon Hmix.
  destruct (run_loop_ok worlds true s Hff Hmon Hmix) as (was & s' & Hrun & Habs & _).
  unfold check_security. rewrite Hrun. cbn.
  apply (f_equal SpecMachine.incidents) in Habs. cbn in Habs.
  by rewrite Habs, spec_run_incidents.
Qed.

Lemma check_security_counts_edges_witness :
  Forall fault_free [battery_env 50 false; battery_env 80 true; battery_env 50 false] /\
  monitoring_active monitoring_app = true /\ mixer_ready (music monitoring_app) = true /\
  incident_count (result_state (check_security
      [battery_env 50 false; battery_env 80 true; battery_env 50 false] monitoring_app)) = 2.
Proof.
  assert (Hff : Forall fault_free
                  [battery_env 50 false; battery_env 80 true; battery_env 50 false])
    by (repeat constructor).
  assert (Hmon : monitoring_active monitoring_app = true) by reflexivity.
  assert (Hmix : mixer_ready (music monitoring_app) = true) by reflexivity.
  split_and!; [exact Hff | exact Hmon | exact Hmix |].
  rewrite (check_security_counts_edges _ _ Hff Hmon Hmix). vm_compute. reflexivity.
Defined.

(** C5.  N >= 1 consecutive Compromised samples, with no fault, raise
    the incident counter by exactly one. *)
Theorem consecutive_compromised_count_once worlds s :
  worlds <> [] ->
  Forall (fun env => fault_free env /\ is_secure (env_battery env) (sensitivity s) = false) worlds ->
  monitoring_active s = true -> mixer_ready (music s) = true ->
  incident_count (result_state (check_security worlds s)) = S (incident_count s).
Proof.
  intros Hne Hall Hmon Hmix.
  rewrite check_security_counts_edges; [| by eapply Forall_impl; [exact Hall|]; intros ? [] | done | done].
  assert (Hr : Forall (fun r => r = false) (readings worlds (sensitivity s))).
  { apply Forall_fmap. eapply Forall_impl; [exact Hall|]. by intros ? []. }
  destruct worlds as [|w ws]; [done|]. unfold readings in *. cbn in Hr |- *.
  apply Forall_cons in Hr as [Hw Hr]. rewrite Hw. cbn.
  rewrite edges_compromised by exact Hr. lia.
Qed.

Lemma consecutive_compromised_count_once_witness :
  [battery_env 50 false; battery_env 40 false; battery_env 95 false] <> [] /\
  Forall (fun env => fault_free env /\ is_secure (env_battery env) (sensitivity monitoring_app) = false)
    [battery_env 50 false; battery_env 40 false; battery_env 95 false] /\
  monitoring_active monitoring_app = true /\ mixer_ready (music monitoring_app) = true /\
  incident_count (result_state (check_security
    [battery_env 50 false; battery_env 40 false; battery_env 95 false] monitoring_app)) = 1.
Proof.
  assert (Hne : [battery_env 50 false; battery_env 40 false; battery_env 95 false] <> [])
    by discriminate.
  assert (Hall : Forall (fun env => fault_free env /\
                   is_secure (env_battery env) (sensitivity monitoring_app) = false)
                 [battery_env 50 false; battery_env 40 false; battery_env 95 false])
    by (repeat constructor; vm_compute; reflexivity).
  assert (Hmon : monitoring_active monitoring_app = true) by reflexivity.
  assert (Hmix : mixer_ready (music monitoring_app) = true) by reflexivity.
  split_and!; [exact Hne | exact Hall | exact Hmon | exact Hmix |].
  exact (consecutive_compromised_count_once _ _ Hne Hall Hmon Hmix).
Defined.

(** C6.  The spec's invariant of section 3 holds along a fault-free
    run that starts with no active alert: at the end the alert is
    active exactly when the latest sample was classified Compromised. *)
Theorem check_security_alert_tracks_status worlds s :
  Forall fault_free worlds -> monitoring_active s = true -> mixer_ready (music s) = true ->
  alert_active s = false ->
  exists was s', check_security worlds s = Running was s' /\
    was = default true (last (readings worlds (sensitivity s))) /\
    alert_active s' = negb was.
Proof.
  intros Hff Hmon Hmix Hoff.
  destruct (run_loop_ok worlds true s Hff Hmon Hmix) as (was & s' & Hrun & Habs & _).
  exists was, s'. split; [exact Hrun|].
  assert (Hc : SpecMachine.consistent (abs was s')).
  { rewrite Habs. apply spec_run_consistent. unfold SpecMachine.consistent. by cbn. }
  split.
  - rewrite <- (abs_secure_status was s'), Habs, spec_run_status. by rewrite abs_secure_status.
  - unfold SpecMachine.consistent in Hc. cbn in Hc. rewrite Hc. by destruct was.
Qed.

Lemma check_security_alert_tracks_status_witness :
  Forall fault_free [battery_env 70 true; battery_env 50 true] /\
  monitoring_active monitoring_app = true /\ mixer_ready (music monitoring_app) = true /\
  alert_active monitoring_app = false /\
  exists was s', check_security [battery_env 70 true; battery_env 50 true] monitoring_app =
      Running was s' /\
    was = default true (last (readings [battery_env 70 true; battery_env 50 true]
                                (sensitivity monitoring_app))) /\
    alert_active s' = negb was.
Proof.
  assert (Hff : Forall fault_free [battery_env 70 true; battery_env 50 true])
    by (repeat constructor).
  assert (Hmon : monitoring_active monitoring_app = true) by reflexivity.
  assert (Hmix : mixer_ready (music monitoring_app) = true) by reflexivity.
  assert (Hoff : alert_active monitoring_app = false) by reflexivity.
  split_and!; [exact Hff | exact Hmon | exact Hmix | exact Hoff |].
  exact (check_security_alert_tracks_status _ _ Hff Hmon Hmix Hoff).
Defined.

(** C7.  The count is not exception-safe: when showing the alert
    toast raises inside [trigger_alert] (a Tk call made from the monitor
    thread), the increment of line 350 has happened but
    [was_secure = is_secure] (line 359) has not, so the thread keeps
    [was_secure = True].  Over any run in which the battery stays
    compromised and the toast keeps failing, the spec counts at most one
    Secure->Compromised edge, while the code counts one incident and
    starts one flashing chain per sample. *)
Theorem alert_toast_failure_recounts worlds s msg :
  monitoring_active s = true -> mixer_ready (music s) = true ->
  Forall (fun env => env_faults env = [(ToastShow "Alerte de Sécurité", msg)] /\
                     is_secure (env_battery env) (sensitivity s) = false) worlds ->
  edges true (readings worlds (sensitivity s)) = Nat.min 1 (length worlds) /\
  exists s', check_security worlds s = Running true s' /\
    incident_count s' = incident_count s + length worlds /\
    flash_chains s' = flash_chains s + length worlds.
Proof.
  intros Hmon Hmix Hw. split.
  - assert (Hr : readings worlds (sensitivity s) = repeat false (length worlds)).
    { unfold readings. induction Hw as [|env ws [_ Hs] _ IH]; [done|]. cbn. by rewrite Hs, IH. }
    rewrite Hr. destruct worlds as [|w ws]; [done|]. cbn.
    enough (forall n, edges false (repeat false n) = 0) as -> by done.
    by induction n.
  - unfold check_security. induction worlds as [|env ws IH] in s, Hmon, Hmix, Hw |- *.
    + exists s. cbn. split_and!; [done | lia | lia].
    + apply Forall_cons in Hw as [[Hf Hs] Hw]. cbn [run_loop]. rewrite Hmon.
      destruct (iteration_toast_fault env s msg Hf Hmix Hs) as (s1 & -> & Hc & Hfl & Hm & Hsens & Hx).
      destruct (IH s1) as (s' & Hrun & Hc' & Hfl'); [congruence | exact Hx | by rewrite Hsens |].
      exists s'. cbn [length]. split_and!; [exact Hrun | lia | lia].
Qed.

Lemma alert_toast_failure_recounts_witness :
  monitoring_active monitoring_app = true /\ mixer_ready (music monitoring_app) = true /\
  Forall (fun env => env_faults env = [(ToastShow "Alerte de Sécurité", "main thread is not in main loop")] /\
                     is_secure (env_battery env) (sensitivity monitoring_app) = false)
    [toast_fault_env; toast_fault_env] /\
  exists s', check_security [toast_fault_env; toast_fault_env] monitoring_app = Running true s' /\
    incident_count s' = 2.
Proof.
  assert (Hmon : monitoring_active monitoring_app = true) by reflexivity.
  assert (Hmix : mixer_ready (music monitoring_app) = true) by reflexivity.
  assert (Hw : Forall (fun env => env_faults env = [(ToastShow "Alerte de Sécurité", "main thread is not in main loop")] /\
                     is_secure (env_battery env) (sensitivity monitoring_app) = false)
                 [toast_fault_env; toast_fault_env]) by (repeat constructor).
  split_and!; [exact Hmon | exact Hmix | exact Hw |].
  destruct (alert_toast_failure_recounts _ _ _ Hmon Hmix Hw) as (_ & s' & Hrun & Hc & _).
  exists s'. split; [exact Hrun | rewrite Hc; reflexivity].
Defined.

(** C8.  When the [except] clause's own [log_event] raises (here the
    battery read fails and so does writing to the Text widget), the
    exception leaves [check_security]: the monitor thread ends while
    [monitoring_active] still says the system is monitoring. *)
Theorem handler_failure_ends_thread env rest s m1 m2 :
  monitoring_active s = true ->
  fault_of (Psutil "sensors_battery") (env_faults env) = Some m1 ->
  fault_of (Tk "log_text" "tag_configure") (env_faults env) = Some m2 ->
  exists s', check_security (env :: rest) s = Died (mkExc (Tk "log_text" "tag_configure") m2) s' /\
    monitoring_active s' = true.
Proof.
  intros Hmon H1 H2. unfold check_security. cbn [run_loop]. rewrite Hmon.
  unfold iteration, evaluate, classify, sensors_battery, handler, log_event, tag_configure.
  pym_unfold. unfold call. cbn. rewrite H1. cbn. rewrite H2. cbn.
  eexists; split; [reflexivity | exact Hmon].
Qed.

Lemma handler_failure_ends_thread_witness :
  monitoring_active monitoring_app = true /\
  fault_of (Psutil "sensors_battery") (env_faults broken_env) = Some "no battery sensor" /\
  fault_of (Tk "log_text" "tag_configure") (env_faults broken_env) =
    Some "main thread is not in main loop" /\
  exists s', check_security [broken_env] monitoring_app =
    Died (mkExc (Tk "log_text" "tag_configure") "main thread is not in main loop") s' /\
    monitoring_active s' = true.
Proof.
  assert (Hmon : monitoring_active monitoring_app = true) by reflexivity.
  assert (H1 : fault_of (Psutil "sensors_battery") (env_faults broken_env) =
                 Some "no battery sensor") by reflexivity.
  assert (H2 : fault_of (Tk "log_text" "tag_configure") (env_faults broken_env) =
                 Some "main thread is not in main loop") by reflexivity.
  split_and!; [exact Hmon | exact H1 | exact H2 |].
  exact (handler_failure_ends_thread broken_env [] monitoring_app _ _ Hmon H1 H2).
Defined.

End Monitor.
