(* ===== verification/Metrics.v ===== *)
(** * Metrics: [update_metrics] and its bounded history

    [update_metrics] (lines 277-304 of [src/alarm.py]) runs on the Tk
    timer: it reads the CPU and memory load, writes them to the header
    labels and the metric cards (the battery card only when there is a
    battery), appends a sample to [self.system_metrics], drops the
    oldest sample once there are more than 100, and re-registers itself
    with [root.after(1000, ...)].  [update_metric_card] (lines 306-310)
    finds the card by its grid position; it is modelled by the card's
    name.  Python's rendering of a float in an f-string is the section
    variable [repr]: the properties do not depend on it.  The guard
    [hasattr(self, 'root')] always holds, since [__init__] builds the
    window before calling [setup_charts]. *)

From S2P Require Import Prelude Policy App.
Import Policy App.

Module Metrics.

(** The capacity of the history (line 301). *)
Definition capacity : nat := 100.

(** Lines 294-302: append, then [pop(0)] when the list is too long. *)
Definition push_metric (history : list Metric) (m : Metric) : list Metric :=
  let h := history ++ [m] in
  if bool_decide (capacity < length h) then tail h else h.

Section WithRepr.
(** Python's [str] of a float, as an f-string renders it. *)
Context (repr : Q -> string).

(** Lines 306-310, the card in column [index] of the metrics frame. *)
Definition update_metric_card (index : nat) (value : string) : M unit :=
  configure ("metric_card_" +:+ pretty index) [("text", value)].

(** Lines 277-304. *)
Definition update_metrics : M unit :=
  call (Psutil "cpu_percent");;
  call (Psutil "virtual_memory");;
  env ← ask;
  let cpu_percent := env_cpu env in
  let memory_percent := env_memory env in
  configure "cpu_label" [("text", "CPU: " +:+ repr cpu_percent +:+ "%")];;
  configure "memory_label" [("text", "RAM: " +:+ repr memory_percent +:+ "%")];;
  call (Psutil "sensors_battery");;
  (match env_battery env with
   | Some b => update_metric_card 0 (repr (percent b) +:+ "%")
   | None => mret tt
   end);;
  update_metric_card 1 (repr cpu_percent +:+ "%");;
  update_metric_card 2 (repr memory_percent +:+ "%");;
  modify (fun s => set_system_metrics
    (push_metric (system_metrics s) (mkMetric (env_clock env) cpu_percent memory_percent)) s);;
  after CbUpdateMetrics.
End WithRepr.

(** The history after a sequence of samples, from an empty list. *)
Definition history_of (samples : list Metric) : list Metric :=
  foldl push_metric [] samples.

(** ** Lemmas *)

Lemma push_metric_lastn history m :
  length history <= capacity ->
  push_metric history m = lastn capacity (history ++ [m]).
Proof.
  intros Hlen. unfold push_metric. rewrite length_app. cbn [length].
  case_bool_decide.
  - symmetry. apply lastn_tail. rewrite length_app. cbn. lia.
  - symmetry. apply lastn_all. rewrite length_app. cbn. lia.
Qed.

Lemma push_metric_length history m :
  length history <= capacity -> length (push_metric history m) <= capacity.
Proof.
  intros Hlen. rewrite push_metric_lastn by exact Hlen. rewrite length_lastn. lia.
Qed.

(** ** Properties *)

(** C18.  Whatever samples arrive, the history [update_metrics] keeps
    is the last 100 of them in arrival order: the oldest sample is the
    one evicted (FIFO), and the history never holds more than 100. *)
Theorem history_is_last_samples samples :
  history_of samples = lastn capacity samples /\ length (history_of samples) <= capacity.
Proof.
  induction samples as [|m ms IH] using rev_ind; [split; [reflexivity | cbn; lia]|].
  unfold history_of in *. rewrite foldl_app. cbn [foldl]. destruct IH as [IH Hlen].
  rewrite push_metric_lastn by exact Hlen. rewrite IH, lastn_lastn_snoc.
  split; [done|]. rewrite length_lastn. lia.
Qed.

(** C19.  [update_metrics] keeps the history within its capacity in
    every world, including those in which one of its calls raises. *)
Theorem update_metrics_bounded repr env s :
  length (system_metrics s) <= capacity ->
  length (system_metrics (final (update_metrics repr) env s)) <= capacity.
Proof.
  revert env s. change (preserves (fun s => length (system_metrics s) <= capacity)
                           (update_metrics repr)).
  unfold update_metrics, update_metric_card. preserves_split;
    first [ by auto with alarm
          | apply preserves_modify; intros x Hx; first [exact Hx | by apply push_metric_length] ].
Qed.

Lemma update_metrics_bounded_witness :
  length (system_metrics init_app) <= capacity /\
  length (system_metrics (final (update_metrics (fun _ => "0.0")) (calm_env "12:00:00" None) init_app))
    <= capacity.
Proof.
  assert (H : length (system_metrics init_app) <= capacity) by (cbn; lia).
  split; [exact H | exact (update_metrics_bounded _ _ _ H)].
Defined.

(** C20.  A fault-free [update_metrics] appends the sample
    (time, CPU load, memory load) to the history through the bounded
    push, writes the battery card only when a battery is present, and
    registers itself again on the Tk timer. *)
Theorem update_metrics_spec repr env s :
  fault_free env ->
  let s' := final (update_metrics repr) env s in
  system_metrics s' =
    push_metric (system_metrics s) (mkMetric (env_clock env) (env_cpu env) (env_memory env)) /\
  after_queue s' = after_queue s ++ [CbUpdateMetrics] /\
  widgets s' !! ("metric_card_0", "text") =
    match env_battery env with
    | Some b => Some (repr (percent b) +:+ "%")
    | None => widgets s !! ("metric_card_0", "text")
    end.
Proof.
  intros Hff. unfold final, update_metrics, update_metric_card. ff_run Hff.
  destruct (env_battery env) as [b|]; ff_run Hff; split_and!; try done; by lookup_through.
Qed.

Lemma update_metrics_spec_witness :
  fault_free (calm_env "12:00:00" (Some (mkBattery 42 (Some true)))) /\
  widgets (final (update_metrics (fun _ => "42.0"))
             (calm_env "12:00:00" (Some (mkBattery 42 (Some true)))) init_app)
    !! ("metric_card_0", "text") = Some ("42.0" +:+ "%").
Proof.
  assert (Hff : fault_free (calm_env "12:00:00" (Some (mkBattery 42 (Some true)))))
    by reflexivity.
  split; [exact Hff|].
  destruct (update_metrics_spec (fun _ => "42.0") _ init_app Hff) as (_ & _ & H).
  exact H.
Defined.

End Metrics.
