(* ===== verification/Lifecycle.v ===== *)
(** * Lifecycle: starting and stopping the monitoring, closing the window

    Lines 428-504 and 531-554, 610-626 of [src/alarm.py].
    [start_monitoring] sets [monitoring_active], updates the button and
    the status label, starts the progress animation, logs, shows a toast
    and, last, starts a new monitor thread running [check_security]
    (the thread itself is created by [System]: a [start_monitoring]
    that returns normally has started one).  [stop_monitoring] clears
    the flag, stops the progress bar, restores the widgets, stops an
    active alert, logs and shows a toast; it does not wait for the
    thread.  [on_closing] asks for confirmation while monitoring,
    clears the flag, stops an active alert, logs, quits the mixer and
    exits.  The progress bar's [start]/[stop] are modelled as a
    pseudo-option "running" of the widget. *)

From S2P Require Import Prelude Policy App EventLog Alert.
Import App EventLog Alert.

Module Lifecycle.

(** [self.progress.start(10)] and [self.progress.stop()]. *)
Definition progress_start : M unit := configure "progress" [("running", "10")].
Definition progress_stop : M unit := configure "progress" [("running", "")].

(** Lines 468-474: one step of the startup animation. *)
Definition animate_progress (step : nat) : M unit :=
  s ← get;
  if bool_decide (step < 100) && monitoring_active s then
    configure "progress" [("value", pretty step)];;
    after (CbAnimate (step + 2))
  else
    configure "progress" [("mode", "indeterminate")];;
    progress_start.

(** Lines 466-477. *)
Definition animate_startup : M unit :=
  configure "progress" [("mode", "determinate"); ("value", "0")];;
  animate_progress 0.

(** Lines 435-464; the [Thread.start()] of line 464 is the final call. *)
Definition start_monitoring : M unit :=
  modify (set_monitoring_active true);;
  progress_start;;
  configure "start_button" [("text", "⏹️ Arrêter la surveillance"); ("style", "warning.TButton")];;
  configure "status_label" [("text", "■ Système Actif"); ("foreground", "#4CAF50")];;
  animate_startup;;
  log_event "🟢 Système de surveillance activé" "info";;
  show_toast (mkToast "Surveillance active" "Le système commence la surveillance" 3000 false);;
  call (Tk "monitor_thread" "start").

(** Lines 479-504. *)
Definition stop_monitoring : M unit :=
  modify (set_monitoring_active false);;
  progress_stop;;
  configure "start_button" [("text", "▶ Démarrer la surveillance"); ("style", "success.TButton")];;
  configure "status_label" [("text", "■ Système Inactif"); ("foreground", "#FFFFFF")];;
  dismiss_if_active;;
  log_event "🔴 Système de surveillance désactivé" "info";;
  show_toast (mkToast "Surveillance arrêtée" "Le système est maintenant inactif" 3000 false).

(** Lines 428-433. *)
Definition toggle_monitoring : M unit :=
  s ← get;
  if monitoring_active s then stop_monitoring else start_monitoring.

(** [mixer.quit()]: playback stops and the mixer is no longer usable. *)
Definition mixer_quit : M unit :=
  call (Mixer "quit");;
  modify (fun s => set_music (mkMusic false (music_loaded (music s)) false) s).

(** Lines 533-541: the confirmation asked while monitoring. *)
Definition confirm_close : M bool :=
  s ← get;
  if monitoring_active s then
    call (Dialog "Confirmation");;
    env ← ask;
    mret (bool_decide (env_answer env = Some "Oui"))
  else mret true.

(** Lines 531-554.  The result says whether the process exits
    ([sys.exit(0)] after [root.destroy()]). *)
Definition on_closing : M bool :=
  confirm_close ≫= fun go : bool =>
  if go then
    (modify (set_monitoring_active false);;
     dismiss_if_active;;
     log_event "💾 Sauvegarde et arrêt du système" "info";;
     mixer_quit;;
     call (Tk "root" "destroy");;
     mret true)
  else mret false.

(** Lines 610-626. *)
Definition finish_startup : M unit :=
  call (Tk "splash" "destroy");;
  call (Tk "root" "deiconify");;
  log_event "🚀 Système initialisé et prêt" "info";;
  show_toast (mkToast "Système Prêt" "Security Monitor Pro est prêt à l'emploi" 3000 false).

(** The startup animation's callbacks. *)
Definition is_animate (cb : Callback) : bool :=
  match cb with CbAnimate _ => true | _ => false end.

(** The Tk loop fires the pending animation callback: it leaves the
    queue and [animate_progress] runs with its step. *)
Definition fire_animation : M unit :=
  s ← get;
  match list_find (fun cb => is_animate cb = true) (after_queue s) with
  | Some (i, CbAnimate k) =>
      modify (fun s => set_after_queue (delete i (after_queue s)) s);;
      animate_progress k
  | _ => mret tt
  end.

(** [n] successive firings. *)
Fixpoint fire_animations (n : nat) : M unit :=
  match n with
  | 0 => mret tt
  | S n' => fire_animation;; fire_animations n'
  end.

Arguments start_monitoring : simpl never.
Arguments stop_monitoring : simpl never.

(** ** Run lemmas *)

Lemma start_monitoring_ok env s :
  fault_free env ->
  exists s', start_monitoring env s = (Ok tt, s') /\
    monitoring_active s' = true /\ alert_active s' = alert_active s /\
    incident_count s' = incident_count s /\ mixer_ready (music s') = mixer_ready (music s) /\
    after_queue s' = after_queue s ++ [CbAnimate 2] /\
    widgets s' !! ("status_label", "text") = Some "■ Système Actif" /\
    log_text s' = log_text s ++ event_chunks env "🟢 Système de surveillance activé" "info" /\
    widgets s' !! ("stop_alert_button", "state") = widgets s !! ("stop_alert_button", "state") /\
    sensitivity s' = sensitivity s.
Proof.
  intros Hff.
  unfold start_monitoring, progress_start, animate_startup, animate_progress. ff_log Hff.
  rewrite (bool_decide_eq_true_2 (0 < 100)) by lia. ff_log Hff.
  eexists; split; [reflexivity|]. cbn. split_and!; try done; by lookup_through.
Qed.

Lemma stop_monitoring_ok env s :
  fault_free env -> mixer_ready (music s) = true ->
  exists s', stop_monitoring env s = (Ok tt, s') /\
    monitoring_active s' = false /\ alert_active s' = false /\
    incident_count s' = incident_count s /\ mixer_ready (music s') = true /\
    after_queue s' = after_queue s /\
    widgets s' !! ("status_label", "text") = Some "■ Système Inactif" /\
    widgets s' !! ("progress", "running") = Some "" /\
    log_text s' = log_text s ++
      (if alert_active s then event_chunks env "🔕 Alerte désactivée" "info" else []) ++
      event_chunks env "🔴 Système de surveillance désactivé" "info" /\
    widgets s' !! ("stop_alert_button", "state") =
      (if alert_active s then Some "disabled" else widgets s !! ("stop_alert_button", "state")) /\
    sensitivity s' = sensitivity s.
Proof.
  intros Hff Hmix.
  unfold stop_monitoring, progress_stop, dismiss_if_active. ff_log Hff.
  destruct (alert_active s) eqn:Ha; cbn.
  - match goal with |- context [stop_alert env ?st] =>
      destruct (stop_alert_ok env st Hff Hmix)
        as (s1 & -> & Hoff & [] & _ & Hb & Hq & Hl & Hw) end.
    ff_log Hff. eexists; split; [reflexivity|]. cbn in *.
    split_and!; try congruence.
    + lookup_through. rewrite Hw by (simpl; intros ?; simplify_eq). by lookup_through.
    + lookup_through. rewrite Hw by (simpl; intros ?; simplify_eq). by lookup_through.
    + by rewrite Hl, <- app_assoc.
    + by lookup_through.
  - ff_log Hff. eexists; split; [reflexivity|]. cbn.
    split_and!; try done; by lookup_through.
Qed.

Lemma find_last_animation q k :
  Forall (fun cb => is_animate cb = false) q ->
  list_find (fun cb => is_animate cb = true) (q ++ [CbAnimate k]) = Some (length q, CbAnimate k).
Proof.
  intros Hq. rewrite list_find_app_r; [reflexivity|].
  apply list_find_None. eapply Forall_impl; [exact Hq|]. intros cb ->. discriminate.
Qed.

Lemma fire_animation_step env s q k :
  fault_free env ->
  Forall (fun cb => is_animate cb = false) q -> after_queue s = q ++ [CbAnimate k] ->
  exists s', fire_animation env s = (Ok tt, s') /\
    monitoring_active s' = monitoring_active s /\ alert_active s' = alert_active s /\
    if bool_decide (k < 100) && monitoring_active s then after_queue s' = q ++ [CbAnimate (k + 2)]
    else after_queue s' = q /\
         widgets s' !! ("progress", "mode") = Some "indeterminate" /\
         widgets s' !! ("progress", "running") = Some "10".
Proof.
  intros Hff Hq Hs. unfold fire_animation. pym_unfold. cbn.
  rewrite Hs, find_last_animation by exact Hq. cbn.
  rewrite Hs, delete_middle, app_nil_r.
  unfold animate_progress, progress_start. ff_run Hff.
  destruct (bool_decide (k < 100) && monitoring_active s); cbn; ff_run Hff;
    eexists; (split; [reflexivity|]); cbn; split_and!; try done; by lookup_through.
Qed.

Lemma fire_animations_finish env q m : forall s,
  fault_free env -> monitoring_active s = true ->
  Forall (fun cb => is_animate cb = false) q ->
  after_queue s = q ++ [CbAnimate (100 - 2 * m)] -> m <= 50 ->
  exists s', fire_animations (S m) env s = (Ok tt, s') /\ monitoring_active s' = true /\
    after_queue s' = q /\
    widgets s' !! ("progress", "mode") = Some "indeterminate" /\
    widgets s' !! ("progress", "running") = Some "10".
Proof.
  induction m as [|m IH]; intros s Hff Hmon Hq Hs Hm;
    destruct (fire_animation_step env s q _ Hff Hq Hs) as (s1 & Hrun & Hmon1 & _ & Hnext);
    cbn [fire_animations]; pym_unfold; rewrite Hrun; rewrite Hmon in Hnext, Hmon1.
  - rewrite bool_decide_eq_false_2 in Hnext by lia. destruct Hnext as (?&?&?).
    exists s1. by split_and!.
  - rewrite bool_decide_eq_true_2 in Hnext by lia.
    replace (100 - 2 * S m + 2) with (100 - 2 * m) in Hnext by lia.
    exact (IH s1 Hff Hmon1 Hq Hnext ltac:(lia)).
Qed.

Lemma on_closing_cancel env s :
  fault_free env -> monitoring_active s = true -> env_answer env <> Some "Oui" ->
  on_closing env s = (Ok false, s).
Proof.
  intros Hff Hmon Hans. unfold on_closing, confirm_close. ff_run Hff. rewrite Hmon. ff_run Hff.
  by rewrite bool_decide_eq_false_2 by exact Hans.
Qed.

Lemma on_closing_confirm env s :
  fault_free env -> mixer_ready (music s) = true ->
  monitoring_active s = false \/ env_answer env = Some "Oui" ->
  exists s', on_closing env s = (Ok true, s') /\
    monitoring_active s' = false /\ alert_active s' = false /\
    mixer_ready (music s') = false /\ music_playing (music s') = false /\
    log_text s' = log_text s ++
      (if alert_active s then event_chunks env "🔕 Alerte désactivée" "info" else []) ++
      event_chunks env "💾 Sauvegarde et arrêt du système" "info".
Proof.
  intros Hff Hmix Hgo. unfold on_closing, confirm_close, dismiss_if_active, mixer_quit. ff_run Hff.
  assert (Hc : (if monitoring_active s then bool_decide (env_answer env = Some "Oui")
                else true) = true).
  { destruct Hgo as [-> | Hans]; [done|]. destruct (monitoring_active s); [|done].
    by apply bool_decide_eq_true_2. }
  destruct (monitoring_active s); [rewrite Hc|]; ff_log Hff;
  (destruct (alert_active s) eqn:Ha; cbn;
   [ match goal with |- context [stop_alert env ?st] =>
       destruct (stop_alert_ok env st Hff Hmix) as (s1 & -> & Hoff & [] & Hpl & _ & _ & Hl & _) end;
     ff_log Hff; eexists; split; [reflexivity|]; cbn in *;
     split_and!; try congruence; by rewrite Hl, <- app_assoc
   | ff_log Hff; eexists; split; [reflexivity|]; cbn; by split_and! ]).
Qed.

(** ** Properties *)

(** C23.  A fault-free [start_monitoring] returns normally, so the
    monitor thread is started; it sets [monitoring_active], shows
    "■ Système Actif", schedules the first step of the progress
    animation, logs "Système de surveillance activé", and leaves the
    incident counter and the alert as they were. *)
Theorem start_monitoring_spec env s :
  fault_free env ->
  let r := start_monitoring env s in
  fst r = Ok tt /\ monitoring_active (snd r) = true /\
  widgets (snd r) !! ("status_label", "text") = Some "■ Système Actif" /\
  after_queue (snd r) = after_queue s ++ [CbAnimate 2] /\
  log_text (snd r) = log_text s ++ event_chunks env "🟢 Système de surveillance activé" "info" /\
  incident_count (snd r) = incident_count s /\ alert_active (snd r) = alert_active s.
Proof.
  intros Hff. destruct (start_monitoring_ok env s Hff) as (s' & -> & ?&?&?&?&?&?&?&_).
  by split_and!.
Qed.

Lemma start_monitoring_spec_witness :
  fault_free (calm_env "12:00:00" None) /\
  after_queue (snd (start_monitoring (calm_env "12:00:00" None) init_app)) = [CbAnimate 2].
Proof.
  assert (Hff : fault_free (calm_env "12:00:00" None)) by reflexivity.
  split; [exact Hff|].
  destruct (start_monitoring_spec _ init_app Hff) as (_ & _ & _ & Hq & _). exact Hq.
Defined.

(** C24.  A fault-free [stop_monitoring] (mixer initialised) clears
    [monitoring_active], stops an active alert (logging its
    dismissal), shows "■ Système Inactif", stops the progress bar and
    logs "Système de surveillance désactivé"; the incident counter is
    kept. *)
Theorem stop_monitoring_spec env s :
  fault_free env -> mixer_ready (music s) = true ->
  let s' := final stop_monitoring env s in
  monitoring_active s' = false /\ alert_active s' = false /\
  incident_count s' = incident_count s /\
  widgets s' !! ("status_label", "text") = Some "■ Système Inactif" /\
  widgets s' !! ("progress", "running") = Some "" /\
  log_text s' = log_text s ++
    (if alert_active s then event_chunks env "🔕 Alerte désactivée" "info" else []) ++
    event_chunks env "🔴 Système de surveillance désactivé" "info".
Proof.
  intros Hff Hmix. unfold final.
  destruct (stop_monitoring_ok env s Hff Hmix) as (s' & -> & ?&?&?&_&_&?&?&?&_).
  by split_and!.
Qed.

Lemma stop_monitoring_spec_witness :
  fault_free (calm_env "12:00:00" None) /\
  mixer_ready (music (set_alert_active true init_app)) = true /\
  alert_active (final stop_monitoring (calm_env "12:00:00" None)
                  (set_alert_active true init_app)) = false.
Proof.
  assert (Hff : fault_free (calm_env "12:00:00" None)) by reflexivity.
  assert (Hmix : mixer_ready (music (set_alert_active true init_app)) = true) by reflexivity.
  split_and!; [exact Hff | exact Hmix |].
  exact (proj1 (proj2 (stop_monitoring_spec _ _ Hff Hmix))).
Defined.

(** C25.  The startup animation terminates: after a fault-free
    [start_monitoring], firing the pending animation callback 50 times
    (steps 2, 4, ..., 100) ends the chain; no animation callback is left
    and the bar is back in indeterminate mode, running. *)
Theorem startup_animation_terminates env s :
  fault_free env -> Forall (fun cb => is_animate cb = false) (after_queue s) ->
  let s' := final (start_monitoring;; fire_animations 50) env s in
  monitoring_active s' = true /\ after_queue s' = after_queue s /\
  widgets s' !! ("progress", "mode") = Some "indeterminate" /\
  widgets s' !! ("progress", "running") = Some "10".
Proof.
  intros Hff Hq. unfold final. pym_unfold.
  destruct (start_monitoring_ok env s Hff) as (s1 & -> & Hmon & _ & _ & _ & Hs1 & _).
  destruct (fire_animations_finish env (after_queue s) 49 s1 Hff Hmon Hq Hs1 ltac:(lia))
    as (s' & Hrun & ?&?&?&?).
  cbv beta iota. rewrite Hrun. by split_and!.
Qed.

Lemma startup_animation_terminates_witness :
  fault_free (calm_env "12:00:00" None) /\
  Forall (fun cb => is_animate cb = false) (after_queue init_app) /\
  after_queue (final (start_monitoring;; fire_animations 50) (calm_env "12:00:00" None) init_app) = [].
Proof.
  assert (Hff : fault_free (calm_env "12:00:00" None)) by reflexivity.
  assert (Hq : Forall (fun cb => is_animate cb = false) (after_queue init_app)) by constructor.
  split_and!; [exact Hff | exact Hq |].
  exact (proj1 (proj2 (startup_animation_terminates _ _ Hff Hq))).
Defined.

(** C26.  Closing the window: while monitoring, any answer but "Oui"
    cancels and leaves everything as it was; otherwise the handler
    clears [monitoring_active], stops an active alert, logs "Sauvegarde
    et arrêt du système", quits the mixer and exits.  Unlike
    [stop_monitoring] it logs no "Système de surveillance désactivé". *)
Theorem on_closing_spec env s :
  fault_free env -> mixer_ready (music s) = true ->
  (monitoring_active s = true -> env_answer env <> Some "Oui" ->
   on_closing env s = (Ok false, s)) /\
  (monitoring_active s = false \/ env_answer env = Some "Oui" ->
   exists s', on_closing env s = (Ok true, s') /\
     monitoring_active s' = false /\ alert_active s' = false /\
     mixer_ready (music s') = false /\ music_playing (music s') = false /\
     log_text s' = log_text s ++
       (if alert_active s then event_chunks env "🔕 Alerte désactivée" "info" else []) ++
       event_chunks env "💾 Sauvegarde et arrêt du système" "info").
Proof.
  intros Hff Hmix. split; [exact (on_closing_cancel env s Hff) | exact (on_closing_confirm env s Hff Hmix)].
Qed.

Lemma on_closing_spec_witness :
  let env := mkEnv "12:00:00" "12:00:00" "12:00:00" "0:00:01" None 0%Q 0%Q (Some "Non") [] in
  fault_free env /\ mixer_ready (music (set_monitoring_active true init_app)) = true /\
  monitoring_active (set_monitoring_active true init_app) = true /\
  env_answer env <> Some "Oui" /\
  on_closing env (set_monitoring_active true init_app) =
    (Ok false, set_monitoring_active true init_app).
Proof.
  intros env.
  assert (Hff : fault_free env) by reflexivity.
  assert (Hmix : mixer_ready (music (set_monitoring_active true init_app)) = true)
    by reflexivity.
  assert (Hmon : monitoring_active (set_monitoring_active true init_app) = true)
    by reflexivity.
  assert (Hans : env_answer env <> Some "Oui") by (cbn; congruence).
  split_and!; [exact Hff | exact Hmix | exact Hmon | exact Hans |].
  exact (proj1 (on_closing_spec env _ Hff Hmix) Hmon Hans).
Defined.

(** C27.  Stopping the monitoring during the one-second startup
    animation leaves the progress bar running: the next animation step
    sees [monitoring_active] false, takes the [else] branch of
    [animate_progress] and calls [progress.start(10)] again after
    [stop_monitoring] has stopped it. *)
Theorem stop_during_startup_restarts_progress env s :
  fault_free env -> mixer_ready (music s) = true ->
  Forall (fun cb => is_animate cb = false) (after_queue s) ->
  let s' := final (start_monitoring;; stop_monitoring;; fire_animation) env s in
  monitoring_active s' = false /\ widgets s' !! ("progress", "running") = Some "10".
Proof.
  intros Hff Hmix Hq. unfold final. pym_unfold.
  destruct (start_monitoring_ok env s Hff) as (s1 & -> & _ & _ & _ & Hx1 & Hs1 & _).
  cbv beta iota.
  destruct (stop_monitoring_ok env s1 Hff ltac:(congruence))
    as (s2 & -> & Hoff & _ & _ & _ & Hs2 & _). cbv beta iota.
  rewrite Hs1 in Hs2.
  destruct (fire_animation_step env s2 _ 2 Hff Hq Hs2) as (s3 & -> & Hm3 & _ & Hnext).
  rewrite Hoff, andb_false_r in Hnext. destruct Hnext as (_ & _ & Hrun).
  cbn. split; [congruence | exact Hrun].
Qed.

Lemma stop_during_startup_restarts_progress_witness :
  fault_free (calm_env "12:00:00" None) /\ mixer_ready (music init_app) = true /\
  Forall (fun cb => is_animate cb = false) (after_queue init_app) /\
  widgets (final (start_monitoring;; stop_monitoring;; fire_animation)
             (calm_env "12:00:00" None) init_app) !! ("progress", "running") = Some "10".
Proof.
  assert (Hff : fault_free (calm_env "12:00:00" None)) by reflexivity.
  assert (Hmix : mixer_ready (music init_app) = true) by reflexivity.
  assert (Hq : Forall (fun cb => is_animate cb = false) (after_queue init_app)) by constructor.
  split_and!; [exact Hff | exact Hmix | exact Hq |].
  exact (proj2 (stop_during_startup_restarts_progress _ _ Hff Hmix Hq)).
Defined.

End Lifecycle.
