(* ===== verification/Startup.v ===== *)
(** * Startup: [__init__], the widget constructors and [run]

    Lines 17-271 and 556-608 of [src/alarm.py].  [__init__] runs
    [setup_system] (the log directory, [logging.basicConfig],
    [mixer.init()] and the state attributes), [create_window],
    [create_gui] (header, sidebar, main content with its four metric
    cards, status bar) and [setup_charts], which calls [update_metrics]
    once.  [run] shows the splash screen, registers [finish_startup] on
    the Tk timer and enters the main loop (the steps of [System]).
    Every Tk, os, logging and pygame call can raise; the model keeps
    each call in its order.  A widget constructor records the options
    the handlers later read ([App.init_widgets]); anonymous widgets and
    the geometry calls ([pack], [grid], [grid_columnconfigure]) are
    calls with no recorded state.  Before [setup_system] the object has
    no attributes: [pre_init] gives them placeholder values, all of
    which [__init__] overwrites. *)

From S2P Require Import Prelude Policy App EventLog Metrics.
Import Policy App EventLog Metrics.

Module Startup.

(** [ttk.Widget(parent, opt=value, ...)]: the constructor may raise;
    the options given are the widget's first options. *)
Definition create (w : string) (opts : list (string * string)) : M unit :=
  call (Tk w "create");;
  modify (fun s => set_widgets (foldl (fun m '(o, v) => <[(w, o) := v]> m) (widgets s) opts) s).

(** A geometry manager call ([pack], [grid], ...) on a widget. *)
Definition place (w meth : string) : M unit := call (Tk w meth).

(** The object before [setup_system] has run. *)
Definition pre_init : App := {|
  monitoring_active := false; alert_active := false; incident_count := 0;
  system_metrics := []; sensitivity := 0%Q; sound_var := false;
  widgets := ∅; log_text := []; log_file := [];
  music := mkMusic false None false; toasts := []; after_queue := []; files := ∅ |}.

(** Lines 24-44. *)
Definition setup_system : M unit :=
  call (Os "makedirs");;
  call (Os "logging.basicConfig");;
  call (Mixer "init");;
  modify (set_music (mkMusic true None false));;
  modify (set_monitoring_active false);;
  modify (set_alert_active false);;
  modify (set_incident_count 0);;
  modify (set_system_metrics []).

(** Lines 46-59. *)
Definition create_window : M unit :=
  create "root" [("title", "Système de Surveillance Pro")];;
  call (Tk "root" "protocol");;
  place "root" "grid_columnconfigure";;
  place "root" "grid_columnconfigure";;
  place "root" "grid_rowconfigure".

(** Lines 68-108. *)
Definition create_header : M unit :=
  create "header" [];; place "header" "grid";;
  create "title_frame" [];; place "title_frame" "pack";;
  create "title" [];; place "title" "pack";;
  create "status_frame" [];; place "status_frame" "pack";;
  create "cpu_label" [("text", "CPU: 0%"); ("style", "primary.Inverse.TLabel")];;
  place "cpu_label" "pack";;
  create "memory_label" [("text", "RAM: 0%"); ("style", "primary.Inverse.TLabel")];;
  place "memory_label" "pack";;
  create "status_label" [("text", "■ Système Inactif"); ("style", "primary.Inverse.TLabel")];;
  place "status_label" "pack".

(** Lines 110-177; the slider and the sound checkbox hold the two
    settings [sensitivity] and [sound_var]. *)
Definition create_sidebar : M unit :=
  create "sidebar" [];; place "sidebar" "grid";;
  create "controls" [];; place "controls" "pack";;
  create "start_button" [("text", "▶ Démarrer la surveillance"); ("style", "success.TButton")];;
  place "start_button" "pack";;
  create "stop_alert_button"
    [("text", "🔕 Désactiver l'alerte"); ("style", "danger.TButton"); ("state", "disabled")];;
  place "stop_alert_button" "pack";;
  create "stats" [];; place "stats" "pack";;
  create "incident_label" [("text", "🚨 Incidents: 0"); ("style", "primary.TLabel")];;
  place "incident_label" "pack";;
  create "time_label" [("text", "⏱️ Durée: 00:00:00"); ("style", "primary.TLabel")];;
  place "time_label" "pack";;
  create "settings" [];; place "settings" "pack";;
  create "sensitivity_caption" [];; place "sensitivity_caption" "pack";;
  create "sensitivity" [];; modify (set_sensitivity 5%Q);; place "sensitivity" "pack";;
  call (Tk "sound_var" "BooleanVar");; modify (set_sound_var true);;
  create "sound_check" [];; place "sound_check" "pack".

(** Lines 242-259: the card in column [column]; its value label is the
    one [update_metric_card] rewrites. *)
Definition create_metric_card (column : nat) (value : string) : M unit :=
  let card := "metric_card_" +:+ pretty column in
  create (card +:+ "_frame") [];; place (card +:+ "_frame") "grid";;
  create (card +:+ "_title") [];; place (card +:+ "_title") "pack";;
  create card [("text", value)];; place card "pack".

(** Lines 179-240. *)
Definition create_main_content : M unit :=
  create "main_frame" [];; place "main_frame" "grid";;
  place "main_frame" "grid_columnconfigure";; place "main_frame" "grid_rowconfigure";;
  create "metrics_frame" [];; place "metrics_frame" "grid";;
  place "metrics_frame" "grid_columnconfigure";; place "metrics_frame" "grid_columnconfigure";;
  place "metrics_frame" "grid_columnconfigure";; place "metrics_frame" "grid_columnconfigure";;
  create_metric_card 0 "12.5V";;
  create_metric_card 1 "25%";;
  create_metric_card 2 "4.2GB";;
  create_metric_card 3 "45°C";;
  create "log_frame" [];; place "log_frame" "grid";;
  create "log_toolbar" [];; place "log_toolbar" "pack";;
  create "export_button" [];; place "export_button" "pack";;
  create "clear_button" [];; place "clear_button" "pack";;
  create "log_text" [("background", "#2b3e50"); ("foreground", "#ffffff")];;
  place "log_text" "pack";;
  create "scrollbar" [];; place "scrollbar" "pack";;
  configure "log_text" [("yscrollcommand", "scrollbar.set")];;
  tag_configure "timestamp" "#888888";;
  tag_configure "info" "#4CAF50";;
  tag_configure "warning" "#FFC107";;
  tag_configure "alert" "#F44336".

(** Lines 261-271. *)
Definition create_status_bar : M unit :=
  create "status_bar" [];; place "status_bar" "grid";;
  create "progress" [("mode", "indeterminate")];; place "progress" "pack".

(** Lines 61-66. *)
Definition create_gui : M unit :=
  create_header;; create_sidebar;; create_main_content;; create_status_bar.

(** Lines 18-21 up to [setup_charts]: the part of [__init__] that
    builds the object. *)
Definition construct : M unit :=
  setup_system;; create_window;; create_gui.

(** Lines 567-608: the splash window only makes Tk calls. *)
Definition show_splash_screen : M unit :=
  create "splash" [];;
  call (Tk "splash" "title");; call (Tk "splash" "geometry");;
  call (Tk "splash" "overrideredirect");; call (Tk "splash" "update_idletasks");;
  call (Tk "splash" "winfo_width");; call (Tk "splash" "winfo_height");;
  call (Tk "splash" "winfo_screenwidth");; call (Tk "splash" "winfo_screenheight");;
  call (Tk "splash" "geometry");;
  create "splash_frame" [];; place "splash_frame" "pack";;
  create "splash_icon" [];; place "splash_icon" "pack";;
  create "splash_title" [];; place "splash_title" "pack";;
  create "splash_progress" [];; place "splash_progress" "pack";;
  call (Tk "splash_progress" "start").

(** Lines 556-562: [run] up to the main loop. *)
Definition run_app : M unit :=
  show_splash_screen;;
  after CbFinishStartup.

Section WithRepr.
Context (repr : Q -> string).

(** Line 22: [setup_charts] (lines 273-275). *)
Definition setup_charts : M unit := update_metrics repr.

(** Lines 629-631 up to [mainloop]: [SecurityMonitorGUI()] then [run]. *)
Definition startup : M unit :=
  construct;; setup_charts;; run_app.
End WithRepr.

(** ** Lemmas *)

Lemma construct_ok env : fault_free env -> construct env pre_init = (Ok tt, init_app).
Proof.
  intros Hff. unfold construct, setup_system, create_window, create_gui, create_header,
    create_sidebar, create_main_content, create_metric_card, create_status_bar, create, place,
    configure, tag_configure.
  ff_run Hff. vm_compute. reflexivity.
Qed.

Lemma construct_oblivious : oblivious construct.
Proof.
  unfold construct, setup_system, create_window, create_gui, create_header, create_sidebar,
    create_main_content, create_metric_card, create_status_bar, create, place, configure,
    tag_configure.
  oblivious_split.
Qed.

Lemma construct_result env u a : construct env pre_init = (Ok u, a) -> a = init_app.
Proof.
  intros H. apply construct_oblivious in H.
  rewrite construct_ok in H by apply without_faults_free. by injection H.
Qed.

Lemma setup_run_no_raise repr : no_raise (setup_charts repr;; run_app).
Proof.
  unfold setup_charts, update_metrics, update_metric_card, run_app, show_splash_screen, create,
    place, configure, after.
  no_raise_split.
Qed.

End Startup.
