(* ===== verification/System.v ===== *)
(** * System: the monitor threads and the Tk event loop, interleaved

    The program runs one Tk main loop ([run], line 565) and one daemon
    thread per call of [start_monitoring] (lines 462-464).  A state of
    the whole program is the object's attributes, the local
    [was_secure] of every monitor thread still alive, and whether the
    process has exited.  A step is one event:
    - a user command on a widget (the start/stop button, the "stop
      alert" button while it is enabled, export, clear, the slider in
      its range [1, 10], the sound checkbox, closing the window);
    - the Tk loop firing one pending [root.after] callback; Tkinter
      reports an exception raised by a callback and carries on, so the
      mutations made before it stay;
    - one monitor thread testing [while self.monitoring_active] and, if
      it holds, running one iteration of [check_security]; a thread that
      finds the flag false, or whose handler raises, ends.
    Each event runs in a world the section variable [env_ok] allows; the
    iteration of a thread is atomic (the GIL may switch threads inside
    it, which this model does not split).  Before the main loop,
    [main] (lines 628-637) runs [Startup.startup] and either starts the
    loop ([boot]) or shows the error dialog and exits with status 1.
    The invariants are proved once for all handlers in Section
    [Invariant] and instantiated per property; the scenario theorems
    (two threads after a quick restart, a restart recounting, an alert
    whose button stays disabled) hold from every state that allows
    them, and the liveness theorem says that threads end once the flag
    is off. *)

From S2P Require Import Prelude Policy App EventLog Alert Monitor Metrics Lifecycle Startup.
Import Policy App EventLog Alert Monitor Metrics Lifecycle Startup.

Module System.

Record Sys := mkSys {
  app : App;                 (* the attributes of the SecurityMonitorGUI object *)
  threads : list bool;       (* was_secure of each live monitor thread *)
  exited : bool              (* sys.exit has run *)
}.

Inductive Event :=
| ToggleMonitoring           (* click on start_button: toggle_monitoring *)
| ClickStopAlert             (* click on stop_alert_button: stop_alert *)
| ClickExport                (* export_logs *)
| ClickClear                 (* clear_logs *)
| SetSensitivity (v : Q)     (* the slider is moved to v *)
| SetSound (b : bool)        (* the sound checkbox *)
| CloseWindow                (* WM_DELETE_WINDOW: on_closing *)
| FireCallback (i : nat)     (* the Tk loop runs the i-th pending after() callback *)
| ThreadStep (i : nat).      (* the i-th live monitor thread takes one loop turn *)

(** How [__main__] (lines 628-637) ends its startup: the main loop runs,
    or the process exits with a status and the error dialog it showed,
    as the pair (message, title) that ttkbootstrap's
    [Messagebox.show_error(message, title)] receives. *)
Inductive Launch :=
| Launched (st : Sys)
| ExitedWith (code : nat) (error_dialog : option (string * string)).

(** The second argument of [show_error] (line 635), which ttkbootstrap
    takes as the dialog's title. *)
Definition startup_error_title (e : PyExc) : string :=
  "Une erreur est survenue lors du démarrage:" +:+ newline +:+ exc_str e.

Section WithRepr.
Context (repr : Q -> string).

(** The callback each [root.after] registration names. *)
Definition dispatch (cb : Callback) : M unit :=
  match cb with
  | CbUpdateMetrics => update_metrics repr
  | CbFlashWarning => flash_warning
  | CbAnimate k => animate_progress k
  | CbFinishStartup => finish_startup
  end.

Definition is_ok {A} (o : outcome PyExc A) : bool :=
  match o with Ok _ => true | Raise _ => false end.

(** One event in world [env]; [None] when the event cannot happen. *)
Definition exec (ev : Event) (env : Env) (st : Sys) : option Sys :=
  if exited st then None else
  let a := app st in
  match ev with
  | ToggleMonitoring =>
      let '(o, a') := toggle_monitoring env a in
      let spawned := negb (monitoring_active a) && is_ok o in
      Some (mkSys a' (threads st ++ (if spawned then [true] else [])) false)
  | ClickStopAlert =>
      if bool_decide (widgets a !! ("stop_alert_button", "state") = Some "normal")
      then Some (mkSys (final stop_alert env a) (threads st) false)
      else None
  | ClickExport => Some (mkSys (final export_logs env a) (threads st) false)
  | ClickClear => Some (mkSys (final clear_logs env a) (threads st) false)
  | SetSensitivity v =>
      if Qle_bool 1 v && Qle_bool v 10
      then Some (mkSys (set_sensitivity v a) (threads st) false)
      else None
  | SetSound b => Some (mkSys (set_sound_var b a) (threads st) false)
  | CloseWindow =>
      match on_closing env a with
      | (Ok true, a') => Some (mkSys a' [] true)   (* daemon threads die with the process *)
      | (_, a') => Some (mkSys a' (threads st) false)
      end
  | FireCallback i =>
      match after_queue a !! i with
      | Some cb =>
          let a1 := set_after_queue (delete i (after_queue a)) a in
          Some (mkSys (final (dispatch cb) env a1) (threads st) false)
      | None => None
      end
  | ThreadStep i =>
      match threads st !! i with
      | Some was =>
          if monitoring_active a then
            match iteration was env a with
            | (Ok was', a') => Some (mkSys a' (<[i := was']> (threads st)) false)
            | (Raise _, a') => Some (mkSys a' (delete i (threads st)) false)
            end
          else Some (mkSys a (delete i (threads st)) false)
      | None => None
      end
  end.

(** Lines 628-637: [SecurityMonitorGUI()] and [run()] inside a [try];
    an exception shows the error dialog and exits with status 1.  The
    call passes "Erreur Critique" first, which [show_error] takes as
    the message, and the f-string second, its title.  If the dialog
    itself raises, that exception leaves [__main__] and the interpreter
    exits with status 1 without a dialog. *)
Definition main (env : Env) : Launch :=
  match startup repr env pre_init with
  | (Ok _, a) => Launched (mkSys a [] false)
  | (Raise e, a) =>
      match call (Dialog "Erreur Critique") env a with
      | (Ok _, _) => ExitedWith 1 (Some ("Erreur Critique", startup_error_title e))
      | (Raise _, _) => ExitedWith 1 None
      end
  end.

(** The state the main loop starts from, when it starts. *)
Definition boot (env : Env) : option Sys :=
  match main env with
  | Launched st => Some st
  | ExitedWith _ _ => None
  end.

(** A sequence of events with their worlds. *)
Fixpoint run_events (evs : list (Event * Env)) (st : Sys) : option Sys :=
  match evs with
  | [] => Some st
  | (ev, env) :: rest =>
      match exec ev env st with
      | Some st' => run_events rest st'
      | None => None
      end
  end.

Section Steps.
Context (env_ok : Env -> Prop).

Inductive step : Sys -> Sys -> Prop :=
| step_exec ev env st st' : env_ok env -> exec ev env st = Some st' -> step st st'.

Definition reachable (st : Sys) : Prop :=
  exists env st0, env_ok env /\ boot env = Some st0 /\ rtc step st0 st.
End Steps.
End WithRepr.

(** The startup animation's callbacks carry the next step of the bar:
    an even number in [2, 100] (lines 468-471). *)
Definition anim_step_ok (cb : Callback) : bool :=
  match cb with
  | CbAnimate k => Nat.even k && (2 <=? k) && (k <=? 100)
  | _ => true
  end.

(** Every pending [root.after] callback is well formed. *)
Definition queue_wf (a : App) : Prop := Forall (fun cb => anim_step_ok cb = true) (after_queue a).

(** ** Concrete runs *)

(** A rendering of floats; the scenarios below do not read it. *)
Definition repr0 : Q -> string := fun _ => "0.0".

Definition plugged_env : Env := battery_env 80 true.
Definition unplugged_env : Env := battery_env 80 false.

(** The state [boot] reaches in [env0] when it succeeds. *)
Definition boot_state (env0 : Env) : Sys :=
  mkSys (final (setup_charts repr0;; run_app) env0 init_app) [] false.

(** A machine without an audio device: [mixer.init()] raises
    pygame's error. *)
Definition no_audio_env : Env :=
  mkEnv "12:00:00" "12:00:00" "12:00:00" "0:00:00" None 0%Q 0%Q None
    [(Mixer "init", "No available audio device")].

(** A world with the battery unplugged in which the call of line 379
    that enables the "stop alert" button raises, as Tk calls made from a
    thread other than the main loop's can. *)
Definition button_fault_env : Env :=
  mkEnv "12:00:00" "12:00:00" "12:00:00" "0:00:01" (Some (mkBattery 50 (Some false)))
    0%Q 0%Q None [(Tk "stop_alert_button" "configure", "main thread is not in main loop")].

(** Boot in [env0], then play [evs]. *)
Definition run_from (env0 : Env) (evs : list (Event * Env)) : option Sys :=
  match boot repr0 env0 with
  | Some st0 => run_events repr0 evs st0
  | None => None
  end.

(** The battery is unplugged throughout; the user starts, stops and
    starts the monitoring again, and the thread of each start takes a
    turn (the stopped thread's turn ends it). *)
Definition restart_trace : list (Event * Env) :=
  [(ToggleMonitoring, unplugged_env); (ThreadStep 0, unplugged_env);
   (ToggleMonitoring, unplugged_env); (ThreadStep 0, unplugged_env);
   (ToggleMonitoring, unplugged_env); (ThreadStep 0, unplugged_env)].

(** ** Invariants of the whole program *)

(** Unfold every handler down to the external calls and the state
    updates, and split an invariant goal along it. *)
Ltac unfold_handlers :=
  unfold dispatch, toggle_monitoring, start_monitoring, stop_monitoring, progress_start,
    progress_stop, animate_startup, animate_progress, dismiss_if_active, stop_alert,
    trigger_alert, flash_warning, music_load, music_play, music_stop, mixer_call, sound_get,
    log_event, tag_configure, insert_text, logging_info, clear_logs, export_logs, on_closing,
    confirm_close, mixer_quit, finish_startup, update_metrics, update_metric_card, iteration,
    evaluate, classify, sensors_battery, sensitivity_get, on_incident, on_recovery,
    update_time_label, handler, setup_charts, run_app, show_splash_screen, create, place,
    configure, cget, after, show_toast.

(** A successful boot has run the constructors, which built [init_app],
    then [setup_charts] and [run]. *)
Lemma boot_from_init repr env st0 :
  boot repr env = Some st0 ->
  threads st0 = [] /\ exited st0 = false /\
  exists u, (setup_charts repr;; run_app) env init_app = (Ok u, app st0).
Proof.
  unfold boot, main, startup. pym_unfold.
  destruct (construct env pre_init) as [[u|e] a] eqn:Ec.
  - rewrite (construct_result env u a Ec).
    destruct ((setup_charts repr;; run_app) env init_app) as [[v|e] a'] eqn:Er;
      unfold mbind, PyM_bind in Er; rewrite Er.
    + intros H. injection H as <-. split_and!; [done | done | by exists v].
    + intros H. repeat case_match; discriminate.
  - intros H. repeat case_match; discriminate.
Qed.

(** An invariant every callback keeps, and that does not read the
    queue, survives a callback leaving the queue and running. *)
Lemma fire_of_dispatch repr (P : App -> Prop) :
  (forall cb, preserves P (dispatch repr cb)) -> (forall q s, P s -> P (set_after_queue q s)) ->
  forall a i cb env, P a -> after_queue a !! i = Some cb ->
  P (final (dispatch repr cb) env (set_after_queue (delete i (after_queue a)) a)).
Proof. intros Hd Hq a i cb env Ha _. apply Hd. by apply Hq. Qed.

Section Invariant.
Context (repr : Q -> string) (P : App -> Prop).
Hypothesis P_toggle : preserves P toggle_monitoring.
Hypothesis P_stop_alert : preserves P stop_alert.
Hypothesis P_export : preserves P export_logs.
Hypothesis P_clear : preserves P clear_logs.
Hypothesis P_close : preserves P on_closing.
Hypothesis P_iteration : forall was, preserves P (iteration was).
Hypothesis P_sensitivity : forall v s, P s -> P (set_sensitivity v s).
Hypothesis P_sound : forall b s, P s -> P (set_sound_var b s).
Hypothesis P_fire : forall a i cb env, P a -> after_queue a !! i = Some cb ->
  P (final (dispatch repr cb) env (set_after_queue (delete i (after_queue a)) a)).

Lemma exec_preserves ev env st st' :
  P (app st) -> exec repr ev env st = Some st' -> P (app st').
Proof.
  intros HP Hex. unfold exec in Hex.
  destruct (exited st); [discriminate|].
  destruct ev; simplify_option_eq; try done.
  - destruct (toggle_monitoring env (app st)) as [o a'] eqn:E. simplify_eq/=.
    specialize (P_toggle env (app st) HP). by rewrite E in P_toggle.
  - by apply P_stop_alert.
  - by apply P_export.
  - by apply P_clear.
  - destruct (Qle_bool 1 v && Qle_bool v 10); simplify_eq/=. by apply P_sensitivity.
  - by apply P_sound.
  - specialize (P_close env (app st) HP).
    destruct (on_closing env (app st)) as [[[]|] a'] eqn:E; simplify_eq/=; exact P_close.
  - destruct (after_queue (app st) !! i) as [cb|] eqn:Hi; simplify_eq/=. by apply P_fire.
  - destruct (threads st !! i) as [was|]; simplify_eq/=.
    destruct (monitoring_active (app st)); simplify_eq/=; [|done].
    specialize (P_iteration was env (app st) HP).
    destruct (iteration was env (app st)) as [[]] eqn:E; simplify_eq/=; exact P_iteration.
Qed.

Lemma step_preserves env_ok st st' : P (app st) -> step repr env_ok st st' -> P (app st').
Proof. intros HP Hs. destruct Hs as [ev env st st' _ Hex]. exact (exec_preserves ev env st st' HP Hex). Qed.

Lemma reachable_preserves env_ok st :
  P init_app -> preserves P (setup_charts repr;; run_app) ->
  reachable repr env_ok st -> P (app st).
Proof.
  intros Hinit Hboot (env & st0 & _ & Hb & Hrtc).
  destruct (boot_from_init repr env st0 Hb) as (_ & _ & u & Hrun).
  assert (Ha : P (app st0)).
  { specialize (Hboot env init_app Hinit). by rewrite Hrun in Hboot. }
  clear Hrun.
  clear Hb. induction Hrtc as [st|st1 st2 st3 Hs _ IH]; [exact Ha|].
  apply IH. exact (step_preserves _ _ _ Ha Hs).
Qed.
End Invariant.

(** Close the leaves of an invariant goal: calls, reads and the state
    updates, which either leave the invariant's attributes alone or are
    the increment or the bounded push. *)
Ltac close_preserves :=
  first [ by auto with alarm
        | apply preserves_modify; intros st_ Hst_; cbn;
          first [ exact Hst_ | lia | by apply push_metric_length
                | apply Forall_app; split; [exact Hst_ | by repeat constructor] ] ].

Ltac prove_preserves := unfold_handlers; preserves_split; close_preserves.

(** Discharge the hypotheses of [Invariant] for an invariant that every
    handler keeps. *)
Ltac invariant_hyps P :=
  first [ intros; prove_preserves
        | intros; cbn; assumption
        | apply (fire_of_dispatch _ P); [intros; prove_preserves | intros; cbn; assumption] ].

(** A run of events in allowed worlds is a path of the step relation. *)
Lemma run_events_rtc repr env_ok evs st st' :
  Forall (fun p => env_ok p.2) evs -> run_events repr evs st = Some st' ->
  rtc (step repr env_ok) st st'.
Proof.
  induction evs as [|[ev env] evs IH] in st |- *; intros Hok Hrun; cbn in Hrun.
  - simplify_eq. apply rtc_refl.
  - apply Forall_cons in Hok as [Henv Hrest].
    destruct (exec repr ev env st) as [st1|] eqn:E; [|discriminate].
    eapply rtc_l; [by econstructor|]. by apply IH.
Qed.

Lemma run_from_reachable env_ok env0 evs st :
  env_ok env0 -> Forall (fun p => env_ok p.2) evs ->
  run_from env0 evs = Some st -> reachable repr0 env_ok st.
Proof.
  intros H0 Hevs Hrun. unfold run_from in Hrun.
  destruct (boot repr0 env0) as [st0|] eqn:E; [|discriminate].
  exists env0, st0. split_and!; [done|done|]. by eapply run_events_rtc.
Qed.

(** In a world where no call raises the program boots, into the state
    [__init__] and [run] leave. *)
Lemma boot_fault_free repr env :
  fault_free env ->
  boot repr env = Some (mkSys (final (setup_charts repr;; run_app) env init_app) [] false).
Proof.
  intros Hff. unfold boot, main, startup, final.
  unfold mbind at 1. unfold PyM_bind at 1. rewrite construct_ok by exact Hff. cbv beta iota.
  destruct (setup_run_no_raise repr env init_app Hff) as [u Hu].
  destruct ((setup_charts repr;; run_app) env init_app) as [o a] eqn:E. cbn in Hu. by subst o.
Qed.

Lemma boot_state_reachable : reachable repr0 fault_free (boot_state plugged_env).
Proof.
  exists plugged_env, (boot_state plugged_env).
  split_and!; [reflexivity | by apply boot_fault_free | apply rtc_refl].
Qed.

(** A concrete run that the computation shows to succeed, named by its
    result and reachable. *)
Lemma run_from_named env_ok env0 evs :
  env_ok env0 -> Forall (fun p => env_ok p.2) evs ->
  match run_from env0 evs with Some _ => true | None => false end = true ->
  run_from env0 evs = Some (default (boot_state env0) (run_from env0 evs)) /\
  reachable repr0 env_ok (default (boot_state env0) (run_from env0 evs)).
Proof.
  intros H0 Hevs Hsome. pose proof (some_default _ (boot_state env0) Hsome) as Hs.
  split; [exact Hs | exact (run_from_reachable env_ok env0 evs _ H0 Hevs Hs)].
Qed.

Lemma anim_next_ok k : Nat.even k = true -> k < 100 -> anim_step_ok (CbAnimate (k + 2)) = true.
Proof.
  intros He Hk. apply Nat.even_spec in He as [m ->]. unfold anim_step_ok.
  assert (Hev : Nat.even (2 * m + 2) = true) by (apply Nat.even_spec; exists (m + 1); lia).
  rewrite Hev, (proj2 (Nat.leb_le 2 _)), (proj2 (Nat.leb_le _ 100)) by lia. done.
Qed.

(** An animation step started from an even step registers a well-formed
    successor, if any. *)
Lemma animate_progress_wf k :
  Nat.even k = true ->
  preserves (fun a => Forall (fun cb => anim_step_ok cb = true) (after_queue a)) (animate_progress k).
Proof.
  intros He. unfold animate_progress, progress_start, configure, after. preserves_split;
    try close_preserves.
  apply preserves_modify. intros st_ Hst_. cbn. apply Forall_app. split; [exact Hst_|].
  repeat constructor. apply anim_next_ok; [done|].
  match goal with H : bool_decide (k < 100) && _ = true |- _ =>
    apply andb_prop in H as [Hk _]; by apply bool_decide_eq_true in Hk end.
Qed.

Lemma run_events_cons repr ev env evs st st1 :
  exec repr ev env st = Some st1 -> run_events repr ((ev, env) :: evs) st = run_events repr evs st1.
Proof. intros H. cbn. by rewrite H. Qed.

Lemma run_events_app repr evs1 evs2 st :
  run_events repr (evs1 ++ evs2) st =
    match run_events repr evs1 st with Some st1 => run_events repr evs2 st1 | None => None end.
Proof.
  induction evs1 as [|[ev env] evs1 IH] in st |- *; [done|]. cbn.
  destruct (exec repr ev env st); [apply IH | done].
Qed.

(** A live thread's turn in a world where no call raises, with the
    monitoring on and the readings compromised, counts one incident. *)
Lemma thread_step_counts repr env st i :
  fault_free env -> exited st = false -> monitoring_active (app st) = true ->
  mixer_ready (music (app st)) = true -> threads st !! i = Some true ->
  is_secure (env_battery env) (sensitivity (app st)) = false ->
  exists st', exec repr (ThreadStep i) env st = Some st' /\
    threads st' = <[i := false]> (threads st) /\ exited st' = false /\
    incident_count (app st') = S (incident_count (app st)) /\
    monitoring_active (app st') = true /\ mixer_ready (music (app st')) = true /\
    sensitivity (app st') = sensitivity (app st).
Proof.
  intros Hff He Hm Hmix Hi Hsec. unfold exec. rewrite He, Hi, Hm.
  destruct (iteration_ok env (app st) true Hff Hmix) as (s' & Hrun & Habs & Hm' & Hs' & Hx).
  rewrite Hrun, Hsec. eexists. split; [reflexivity|]. cbn.
  rewrite Hsec in Habs. apply (f_equal SpecMachine.incidents) in Habs. cbn in Habs.
  split_and!; congruence.
Qed.

(** Two clicks on the start/stop button while monitoring: the flag is
    cleared and set again, the old threads stay and a new one is
    spawned with [was_secure = True]. *)
Lemma stop_start repr env st :
  fault_free env -> exited st = false -> monitoring_active (app st) = true ->
  mixer_ready (music (app st)) = true ->
  exists st', run_events repr [(ToggleMonitoring, env); (ToggleMonitoring, env)] st = Some st' /\
    threads st' = threads st ++ [true] /\ exited st' = false /\
    incident_count (app st') = incident_count (app st) /\
    monitoring_active (app st') = true /\ mixer_ready (music (app st')) = true /\
    sensitivity (app st') = sensitivity (app st).
Proof.
  intros Hff He Hm Hmix.
  destruct (stop_monitoring_ok env (app st) Hff Hmix)
    as (s1 & Hs1 & Hm1 & _ & Hc1 & Hx1 & _ & _ & _ & _ & _ & Hsens1).
  destruct (start_monitoring_ok env s1 Hff)
    as (s2 & Hs2 & Hm2 & _ & Hc2 & Hx2 & _ & _ & _ & _ & Hsens2).
  assert (Ht1 : toggle_monitoring env (app st) = (Ok tt, s1))
    by (unfold toggle_monitoring; pym_unfold; cbn; rewrite Hm; exact Hs1).
  assert (Ht2 : toggle_monitoring env s1 = (Ok tt, s2))
    by (unfold toggle_monitoring; pym_unfold; cbn; rewrite Hm1; exact Hs2).
  cbn [run_events]. unfold exec at 1. rewrite He, Ht1, Hm. cbn [negb andb app].
  rewrite app_nil_r. unfold exec. cbn [exited app threads]. rewrite Ht2, Hm1. cbn.
  eexists. split; [reflexivity|]. cbn. split_and!; congruence.
Qed.

(** ** Properties *)

(** C28.  In every reachable state, whatever the worlds allowed (calls
    raising included) and however the threads and callbacks
    interleave, the metrics history holds at most 100 samples. *)
Theorem reachable_history_bounded repr env_ok st :
  reachable repr env_ok st -> length (system_metrics (app st)) <= capacity.
Proof.
  let P := constr:(fun a => length (system_metrics a) <= capacity) in
  apply (reachable_preserves repr P); try invariant_hyps P; cbn; lia.
Qed.

Lemma reachable_history_bounded_witness :
  reachable repr0 fault_free (boot_state plugged_env) /\
  length (system_metrics (app (boot_state plugged_env))) <= capacity.
Proof.
  split; [exact boot_state_reachable | exact (reachable_history_bounded _ _ _ boot_state_reachable)].
Defined.

(** C29.  The incident counter never decreases along any interleaving
    of user commands, timer callbacks and thread turns, in any worlds:
    no handler resets or lowers it. *)
Theorem incidents_never_decrease repr env_ok st st' :
  rtc (step repr env_ok) st st' -> incident_count (app st) <= incident_count (app st').
Proof.
  induction 1 as [st|s1 s2 s3 Hs _ IH]; [done|]. destruct Hs as [ev env s1' s2' _ Hex].
  etrans; [|exact IH].
  let P := constr:(fun a => incident_count (app s1') <= incident_count a) in
  refine (exec_preserves repr P _ _ _ _ _ _ _ _ _ ev env s1' s2' _ Hex);
    try invariant_hyps P; lia.
Qed.

Lemma incidents_never_decrease_witness :
  let st := default (boot_state plugged_env) (run_events repr0 restart_trace (boot_state plugged_env)) in
  rtc (step repr0 fault_free) (boot_state plugged_env) st /\
  incident_count (app (boot_state plugged_env)) <= incident_count (app st).
Proof.
  intros st.
  assert (Hr : rtc (step repr0 fault_free) (boot_state plugged_env) st).
  { apply (run_events_rtc _ _ restart_trace); [repeat constructor | vm_compute; reflexivity]. }
  split; [exact Hr | exact (incidents_never_decrease _ _ _ _ Hr)].
Defined.

(** C30.  Stopping and restarting the monitoring before a live thread
    has looked at the flag leaves two monitor threads running: the stop
    (line 481) only clears the flag and the start (lines 437, 462) sets
    it again and spawns a second thread.  From any state where thread
    [i] is live with [was_secure = True], two clicks then a compromised
    world make both the old and the new thread count the same
    Secure->Compromised edge: two incidents for one unplugging. *)
Theorem quick_restart_double_counts repr env env' st i :
  fault_free env -> fault_free env' -> exited st = false -> monitoring_active (app st) = true ->
  mixer_ready (music (app st)) = true -> threads st !! i = Some true ->
  is_secure (env_battery env') (sensitivity (app st)) = false ->
  exists st', run_events repr [(ToggleMonitoring, env); (ToggleMonitoring, env);
                               (ThreadStep i, env'); (ThreadStep (length (threads st)), env')] st = Some st' /\
    length (threads st') = S (length (threads st)) /\
    monitoring_active (app st') = true /\
    incident_count (app st') = incident_count (app st) + 2.
Proof.
  intros Hff Hff' He Hm Hmix Hi Hsec.
  destruct (stop_start repr env st Hff He Hm Hmix) as (st1 & Hr1 & Ht1 & He1 & Hc1 & Hm1 & Hx1 & Hs1).
  assert (Hi1 : threads st1 !! i = Some true) by (rewrite Ht1; by apply lookup_app_l_Some).
  destruct (thread_step_counts repr env' st1 i Hff' He1 Hm1 Hx1 Hi1 ltac:(congruence))
    as (st2 & Hr2 & Ht2 & He2 & Hc2 & Hm2 & Hx2 & Hs2).
  pose proof (lookup_lt_Some _ _ _ Hi) as Hlt.
  assert (Hn : threads st2 !! length (threads st) = Some true).
  { rewrite Ht2, list_lookup_insert_ne by lia. rewrite Ht1, lookup_app_r by lia.
    by rewrite Nat.sub_diag. }
  destruct (thread_step_counts repr env' st2 _ Hff' He2 Hm2 Hx2 Hn ltac:(congruence))
    as (st3 & Hr3 & Ht3 & _ & Hc3 & Hm3 & _).
  exists st3. split.
  - change [(ToggleMonitoring, env); (ToggleMonitoring, env); (ThreadStep i, env');
            (ThreadStep (length (threads st)), env')]
      with ([(ToggleMonitoring, env); (ToggleMonitoring, env)] ++
            [(ThreadStep i, env'); (ThreadStep (length (threads st)), env')]).
    by rewrite run_events_app, Hr1, (run_events_cons _ _ _ _ _ _ Hr2), (run_events_cons _ _ _ _ _ _ Hr3).
  - rewrite Ht3, length_insert, Ht2, length_insert, Ht1, length_app. cbn. split_and!; [lia | done | lia].
Qed.

Lemma quick_restart_double_counts_witness :
  let st := default (boot_state plugged_env) (run_from plugged_env [(ToggleMonitoring, plugged_env)]) in
  fault_free plugged_env /\ fault_free unplugged_env /\ exited st = false /\
  monitoring_active (app st) = true /\ mixer_ready (music (app st)) = true /\
  threads st !! 0 = Some true /\ is_secure (env_battery unplugged_env) (sensitivity (app st)) = false /\
  exists st', run_events repr0 [(ToggleMonitoring, plugged_env); (ToggleMonitoring, plugged_env);
                                (ThreadStep 0, unplugged_env); (ThreadStep 1, unplugged_env)] st = Some st' /\
    length (threads st') = 2 /\ monitoring_active (app st') = true /\
    incident_count (app st') = incident_count (app st) + 2.
Proof.
  intros st.
  assert (Hff : fault_free plugged_env) by reflexivity.
  assert (Hff' : fault_free unplugged_env) by reflexivity.
  assert (He : exited st = false) by (vm_compute; reflexivity).
  assert (Hm : monitoring_active (app st) = true) by (vm_compute; reflexivity).
  assert (Hx : mixer_ready (music (app st)) = true) by (vm_compute; reflexivity).
  assert (Hi : threads st !! 0 = Some true) by (vm_compute; reflexivity).
  assert (Hs : is_secure (env_battery unplugged_env) (sensitivity (app st)) = false)
    by (vm_compute; reflexivity).
  assert (Hl : length (threads st) = 1) by (vm_compute; reflexivity).
  split_and!; try assumption.
  destruct (quick_restart_double_counts repr0 plugged_env unplugged_env st 0 Hff Hff' He Hm Hx Hi Hs)
    as (st' & Hr & Hlen & Hm' & Hc).
  rewrite Hl in Hr, Hlen. exists st'. split_and!; assumption.
Defined.

(** C31.  A restart resets the thread's [was_secure] to [True]
    (line 337) although the spec (section 4.2) keeps the state across
    evaluations: whatever the live threads have already seen, when the
    readings are compromised, stopping and starting the monitoring and
    one turn of the new thread count one more incident, so an
    unplugging already counted is counted again. *)
Theorem restart_recounts_same_unplug repr env st :
  fault_free env -> exited st = false -> monitoring_active (app st) = true ->
  mixer_ready (music (app st)) = true ->
  is_secure (env_battery env) (sensitivity (app st)) = false ->
  exists st', run_events repr [(ToggleMonitoring, env); (ToggleMonitoring, env);
                               (ThreadStep (length (threads st)), env)] st = Some st' /\
    threads st' = threads st ++ [false] /\
    incident_count (app st') = S (incident_count (app st)).
Proof.
  intros Hff He Hm Hmix Hsec.
  destruct (stop_start repr env st Hff He Hm Hmix) as (st1 & Hr1 & Ht1 & He1 & Hc1 & Hm1 & Hx1 & Hs1).
  assert (Hn : threads st1 !! length (threads st) = Some true).
  { rewrite Ht1, lookup_app_r by lia. by rewrite Nat.sub_diag. }
  destruct (thread_step_counts repr env st1 _ Hff He1 Hm1 Hx1 Hn ltac:(congruence))
    as (st2 & Hr2 & Ht2 & _ & Hc2 & _).
  exists st2. split_and!.
  - change [(ToggleMonitoring, env); (ToggleMonitoring, env); (ThreadStep (length (threads st)), env)]
      with ([(ToggleMonitoring, env); (ToggleMonitoring, env)] ++ [(ThreadStep (length (threads st)), env)]).
    by rewrite run_events_app, Hr1, (run_events_cons _ _ _ _ _ _ Hr2).
  - rewrite Ht2, Ht1, insert_app_r_alt, Nat.sub_diag by lia. reflexivity.
  - congruence.
Qed.

(** The battery unplugged from the start: one turn of the first
    thread has already counted the unplugging. *)
Lemma restart_recounts_same_unplug_witness :
  let st := default (boot_state plugged_env)
              (run_from plugged_env [(ToggleMonitoring, unplugged_env); (ThreadStep 0, unplugged_env)]) in
  fault_free unplugged_env /\ exited st = false /\ monitoring_active (app st) = true /\
  mixer_ready (music (app st)) = true /\
  is_secure (env_battery unplugged_env) (sensitivity (app st)) = false /\
  threads st = [false] /\ incident_count (app st) = 1 /\
  exists st', run_events repr0 [(ToggleMonitoring, unplugged_env); (ToggleMonitoring, unplugged_env);
                                (ThreadStep 1, unplugged_env)] st = Some st' /\
    threads st' = [false; false] /\ incident_count (app st') = 2.
Proof.
  intros st.
  assert (Hff : fault_free unplugged_env) by reflexivity.
  assert (He : exited st = false) by (vm_compute; reflexivity).
  assert (Hm : monitoring_active (app st) = true) by (vm_compute; reflexivity).
  assert (Hx : mixer_ready (music (app st)) = true) by (vm_compute; reflexivity).
  assert (Hs : is_secure (env_battery unplugged_env) (sensitivity (app st)) = false)
    by (vm_compute; reflexivity).
  assert (Ht : threads st = [false]) by (vm_compute; reflexivity).
  assert (Hc : incident_count (app st) = 1) by (vm_compute; reflexivity).
  split_and!; try assumption.
  destruct (restart_recounts_same_unplug repr0 unplugged_env st Hff He Hm Hx Hs) as (st' & Hr & Ht' & Hc').
  rewrite Ht in Hr, Ht'. rewrite Hc in Hc'. exists st'. split_and!; assumption.
Defined.

(** C32.  The monitor thread raises the alert before it enables the
    "stop alert" button (lines 372-379).  When that Tk call raises, as
    Tk calls from a thread other than the main loop's can, the alert is
    on (sound and flashing included), the incident counted, the button
    still disabled and the thread still alive, so the user has no
    command that stops the alert: every click on the button is refused. *)
Theorem alert_without_stop_button repr env st i msg :
  exited st = false -> monitoring_active (app st) = true -> threads st !! i = Some true ->
  env_faults env = [(Tk "stop_alert_button" "configure", msg)] ->
  is_secure (env_battery env) (sensitivity (app st)) = false ->
  widgets (app st) !! ("stop_alert_button", "state") = Some "disabled" ->
  exists st', exec repr (ThreadStep i) env st = Some st' /\
    alert_active (app st') = true /\ incident_count (app st') = S (incident_count (app st)) /\
    widgets (app st') !! ("stop_alert_button", "state") = Some "disabled" /\
    threads st' !! i = Some true /\
    forall env', exec repr ClickStopAlert env' st' = None.
Proof.
  intros He Hm Hi Hf Hsec Hb. unfold exec at 1. rewrite He, Hi, Hm.
  destruct (iteration_button_fault env (app st) msg Hf Hsec) as (s' & -> & Hc & Ha & Hb' & _).
  eexists. split; [reflexivity|]. cbn. rewrite Hb in Hb'.
  split_and!; [done | done | congruence | | ].
  - apply list_lookup_insert_eq. by eapply lookup_lt_Some.
  - intros env'. unfold exec. cbn. rewrite Hb'. by rewrite bool_decide_eq_false_2.
Qed.

Lemma alert_without_stop_button_witness :
  let st := default (boot_state plugged_env) (run_from plugged_env [(ToggleMonitoring, plugged_env)]) in
  exited st = false /\ monitoring_active (app st) = true /\ threads st !! 0 = Some true /\
  env_faults button_fault_env = [(Tk "stop_alert_button" "configure", "main thread is not in main loop")] /\
  is_secure (env_battery button_fault_env) (sensitivity (app st)) = false /\
  widgets (app st) !! ("stop_alert_button", "state") = Some "disabled" /\
  exists st', exec repr0 (ThreadStep 0) button_fault_env st = Some st' /\
    alert_active (app st') = true /\ widgets (app st') !! ("stop_alert_button", "state") = Some "disabled" /\
    forall env', exec repr0 ClickStopAlert env' st' = None.
Proof.
  intros st.
  assert (He : exited st = false) by (vm_compute; reflexivity).
  assert (Hm : monitoring_active (app st) = true) by (vm_compute; reflexivity).
  assert (Hi : threads st !! 0 = Some true) by (vm_compute; reflexivity).
  assert (Hf : env_faults button_fault_env =
                 [(Tk "stop_alert_button" "configure", "main thread is not in main loop")]) by reflexivity.
  assert (Hs : is_secure (env_battery button_fault_env) (sensitivity (app st)) = false)
    by (vm_compute; reflexivity).
  assert (Hb : widgets (app st) !! ("stop_alert_button", "state") = Some "disabled") by (vm_compute; reflexivity).
  split_and!; try assumption.
  destruct (alert_without_stop_button repr0 button_fault_env st 0 _ He Hm Hi Hf Hs Hb)
    as (st' & Hx & Ha & _ & Hb' & _ & Hno).
  exists st'. split_and!; assumption.
Defined.

(** C33.  A machine without an audio device cannot run the program:
    [mixer.init()] (line 37) is outside any [try] of [setup_system], so
    its exception reaches [__main__], which shows the error dialog
    (message "Erreur Critique", the exception's text in the title, the
    order [show_error(message, title)] takes them) and exits with status 1 (status 1 without
    the dialog when the dialog itself raises).  The spec (section 4.3)
    says failures opening the audio device are never fatal. *)
Theorem mixer_init_failure_exits repr env msg :
  fault_of (Os "makedirs") (env_faults env) = None ->
  fault_of (Os "logging.basicConfig") (env_faults env) = None ->
  fault_of (Mixer "init") (env_faults env) = Some msg ->
  main repr env =
    ExitedWith 1 (match fault_of (Dialog "Erreur Critique") (env_faults env) with
                  | None => Some ("Erreur Critique", startup_error_title (mkExc (Mixer "init") msg))
                  | Some _ => None
                  end).
Proof.
  intros H1 H2 H3. unfold main, startup, construct, setup_system. pym_unfold. unfold call.
  rewrite H1, H2, H3. cbn. by destruct (fault_of (Dialog "Erreur Critique") _).
Qed.

Lemma mixer_init_failure_exits_witness :
  fault_of (Os "makedirs") (env_faults no_audio_env) = None /\
  fault_of (Os "logging.basicConfig") (env_faults no_audio_env) = None /\
  fault_of (Mixer "init") (env_faults no_audio_env) = Some "No available audio device" /\
  main repr0 no_audio_env =
    ExitedWith 1 (Some ("Erreur Critique",
                        startup_error_title (mkExc (Mixer "init") "No available audio device"))).
Proof.
  assert (H1 : fault_of (Os "makedirs") (env_faults no_audio_env) = None) by reflexivity.
  assert (H2 : fault_of (Os "logging.basicConfig") (env_faults no_audio_env) = None) by reflexivity.
  assert (H3 : fault_of (Mixer "init") (env_faults no_audio_env) = Some "No available audio device")
    by reflexivity.
  split_and!; [exact H1 | exact H2 | exact H3 |].
  exact (mixer_init_failure_exits repr0 no_audio_env _ H1 H2 H3).
Defined.

(** C34.  In a world where no call raises the program starts its main
    loop with no monitor thread, monitoring off, no alert, no incident,
    one metrics sample taken by [setup_charts], and two callbacks
    pending on the Tk timer: the next [update_metrics] and
    [finish_startup]. *)
Theorem launch_fault_free repr env :
  fault_free env ->
  exists st, main repr env = Launched st /\ threads st = [] /\ exited st = false /\
    monitoring_active (app st) = false /\ alert_active (app st) = false /\
    incident_count (app st) = 0 /\
    system_metrics (app st) = [mkMetric (env_clock env) (env_cpu env) (env_memory env)] /\
    after_queue (app st) = [CbUpdateMetrics; CbFinishStartup].
Proof.
  intros Hff. pose proof (boot_fault_free repr env Hff) as Hb. unfold boot in Hb.
  destruct (main repr env) as [st|]; [|discriminate]. injection Hb as ->.
  exists (mkSys (final (setup_charts repr;; run_app) env init_app) [] false).
  split_and!; try done; unfold final, setup_charts, run_app, update_metrics, update_metric_card,
    show_splash_screen, create, place; ff_run Hff; destruct (env_battery env); ff_run Hff; reflexivity.
Qed.

Lemma launch_fault_free_witness :
  fault_free plugged_env /\
  exists st, main repr0 plugged_env = Launched st /\ after_queue (app st) = [CbUpdateMetrics; CbFinishStartup].
Proof.
  assert (Hff : fault_free plugged_env) by reflexivity.
  split; [exact Hff|].
  destruct (launch_fault_free repr0 plugged_env Hff) as (st & Hm & _ & _ & _ & _ & _ & _ & Hq).
  by exists st.
Defined.


(** C35.  Liveness of stopping: once [monitoring_active] is false,
    each live monitor thread ends at its next turn, touching nothing
    (the [while] test of line 340 fails); after one turn of each, no
    monitor thread is left and the object is as it was. *)
Theorem threads_end_after_stop repr env st :
  exited st = false -> monitoring_active (app st) = false ->
  run_events repr (repeat (ThreadStep 0, env) (length (threads st))) st = Some (mkSys (app st) [] false).
Proof.
  destruct st as [a ts e]; cbn. intros -> Hm.
  induction ts as [|t ts IH]; [done|]. cbn. unfold exec. cbn. rewrite Hm. exact IH.
Qed.

Lemma threads_end_after_stop_witness :
  let st := default (boot_state plugged_env)
              (run_from plugged_env (restart_trace ++ [(ToggleMonitoring, plugged_env)])) in
  exited st = false /\ monitoring_active (app st) = false /\
  run_events repr0 (repeat (ThreadStep 0, plugged_env) (length (threads st))) st =
    Some (mkSys (app st) [] false).
Proof.
  intros st.
  assert (He : exited st = false) by (vm_compute; reflexivity).
  assert (Hm : monitoring_active (app st) = false) by (vm_compute; reflexivity).
  split_and!; [exact He | exact Hm | exact (threads_end_after_stop repr0 plugged_env st He Hm)].
Defined.

(** C36.  Well-formedness of the Tk timer queue: in every reachable
    state, whatever the worlds (calls raising included) and the
    interleaving, every pending startup-animation callback carries an
    even step in [2, 100], so the value [animate_progress] writes to the
    bar (lines 469-470) stays within the bar's range and the chain ends
    at 100. *)
Theorem reachable_queue_wf repr env_ok st : reachable repr env_ok st -> queue_wf (app st).
Proof.
  let P := constr:(fun a => Forall (fun cb => anim_step_ok cb = true) (after_queue a)) in
  apply (reachable_preserves repr P); try (intros; prove_preserves).
  intros a i cb env Ha Hi.
  pose proof (Forall_lookup_1 _ _ _ _ Ha Hi) as Hcb.
  assert (Hq : Forall (fun cb => anim_step_ok cb = true)
                 (after_queue (set_after_queue (delete i (after_queue a)) a)))
    by (cbn; by apply Forall_delete).
  assert (Hd : forall c, (forall k, c <> CbAnimate k) ->
            preserves (fun a => Forall (fun cb => anim_step_ok cb = true) (after_queue a))
              (dispatch repr c)).
  { intros [| |k|] Hc; [prove_preserves | prove_preserves | by destruct (Hc k) | prove_preserves]. }
  unfold final. destruct cb as [| |k|];
    [ apply Hd | apply Hd | apply (animate_progress_wf k) | apply Hd ]; try done.
  by apply andb_prop in Hcb as [[? _]%andb_prop _].
Qed.

(** After the first start, the animation's next step is pending. *)
Lemma reachable_queue_wf_witness :
  let st := default (boot_state plugged_env) (run_from plugged_env [(ToggleMonitoring, plugged_env)]) in
  reachable repr0 fault_free st /\ after_queue (app st) !! 2 = Some (CbAnimate 2) /\ queue_wf (app st).
Proof.
  intros st.
  destruct (run_from_named fault_free plugged_env [(ToggleMonitoring, plugged_env)]) as [_ Hr];
    [reflexivity | repeat constructor | vm_compute; reflexivity |].
  split_and!; [exact Hr | vm_compute; reflexivity | exact (reachable_queue_wf _ _ _ Hr)].
Defined.

End System.
